(** * SquareWithWell-Transient.py

    A shallow embedding of the script
    [src/SquareWithWell-Transient/SquareWithWell-Transient.py]: a one-layer
    50 x 100 MODFLOW grid with constant-head columns on the left and right
    and one well that pumps during the first of two stress periods.

    The script is read as Python 3: [/] is true division and [round]
    returns an [int].  Python [float]s are IEEE binary64 numbers (Rocq's
    primitive floats), Python [int]s are [Z], NumPy [float32] cells are
    binary32 numbers ([spec_float] at precision 24), NumPy arrays carry
    their shape next to their cells, and the [dict] of well data is a
    [gmap]. *)

From Stdlib Require Import ZArith.
From Stdlib Require Import Floats.PrimFloat Floats.FloatOps Floats.SpecFloat.
From stdpp Require Import base option list gmap strings pretty.

Local Open Scope Z_scope.

(** ** Python values: exceptions, numbers *)

Module Py.

(** The exceptions a statement of the script can end with.  [Exception]
    is what the script's own [raise] statement raises; [LibraryError] is
    anything raised inside a call into flopy or matplotlib. *)
Inductive exn : Type :=
| Exception (msg : string)
| IndexError
| ValueError
| OverflowError
| ZeroDivisionError
| LibraryError (what : string).

Definition result (A : Type) : Type := exn + A.
Definition Ok {A} (a : A) : result A := inr a.
Definition Raise {A} (e : exn) : result A := inl e.

#[global] Instance result_ret : MRet result := fun _ a => Ok a.
#[global] Instance result_bind : MBind result := fun _ _ k r =>
  match r with inl e => inl e | inr a => k a end.

Definition is_Ok {A} (r : result A) : Prop :=
  match r with inr _ => True | inl _ => False end.

(** The value of an expression that is known not to raise. *)
Definition ok_value {A} (r : result A) : is_Ok r -> A :=
  match r with
  | inr a => fun _ => a
  | inl _ => fun H => match H with end
  end.

(** [float(n)] for an [int]: the nearest binary64, ties to even.  (Beyond
    the binary64 range Python raises [OverflowError]; the script converts
    small integers only.) *)
Definition float_of_int (n : Z) : float :=
  SF2Prim (binary_normalize prec emax n 0 false).

(** [x / y] on floats: Python raises on a zero divisor. *)
Definition truediv (x y : float) : result float :=
  if (y =? 0)%float then Raise ZeroDivisionError else Ok (x / y)%float.

(** [x / n] with a [float] and an [int]: the [int] is converted first. *)
Definition truediv_fi (x : float) (n : Z) : result float :=
  truediv x (float_of_int n).

(** [m / n] on [int]s (true division).  Python rounds the exact quotient
    once; converting both operands first agrees with that whenever both
    are below 2^53 in magnitude, as all the script's operands are. *)
Definition truediv_ii (m n : Z) : result float :=
  truediv (float_of_int m) (float_of_int n).

(** [round(x)] with one argument: the nearest [int], ties to even. *)
Definition round (x : float) : result Z :=
  match Prim2SF x with
  | S754_zero _ => Ok 0
  | S754_finite s m e =>
      let n :=
        if 0 <=? e then Z.pos m * 2 ^ e
        else
          let d := 2 ^ (- e) in
          let q := Z.pos m / d in
          let r := Z.pos m mod d in
          match 2 * r ?= d with
          | Lt => q
          | Gt => q + 1
          | Eq => if Z.even q then q else q + 1
          end in
      Ok (cond_Zopp s n)
  | S754_nan => Raise ValueError
  | S754_infinity _ => Raise OverflowError
  end.

(** [int(x)] when [x.is_integer()]: the integer a float is exactly. *)
Definition as_integer (x : float) : option Z :=
  match Prim2SF x with
  | S754_zero _ => Some 0
  | S754_finite s m e =>
      if 0 <=? e then Some (cond_Zopp s (Z.pos m * 2 ^ e))
      else if Z.pos m mod 2 ^ (- e) =? 0
           then Some (cond_Zopp s (Z.pos m / 2 ^ (- e)))
           else None
  | _ => None
  end.

(** Index normalisation of sequences and array axes: negative indices
    count from the end, anything outside raises [IndexError]. *)
Definition norm_index (n : nat) (i : Z) : result nat :=
  if (0 <=? i) && (i <? Z.of_nat n) then Ok (Z.to_nat i)
  else if (- Z.of_nat n <=? i) && (i <? 0) then Ok (Z.to_nat (i + Z.of_nat n))
  else Raise IndexError.

(** [l[i]] on a list or a one-dimensional array. *)
Definition getitem {A} (l : list A) (i : Z) : result A :=
  j ← norm_index (length l) i;
  match l !! j with Some a => Ok a | None => Raise IndexError end.

End Py.

Import Py.

(** ** NumPy: binary32 cells, arrays with a shape, [ones], [linspace] *)

Module F32.

Definition prec32 : Z := 24.
Definition emax32 : Z := 128.

(** A binary32 number. *)
Definition t : Type := spec_float.

(** Conversion of a Python [float] to [float32] (round to nearest even). *)
Definition of_float (x : float) : t :=
  match Prim2SF x with
  | S754_finite s m e =>
      binary_normalize prec32 emax32 (cond_Zopp s (Z.pos m)) e s
  | sf => sf
  end.

(** Every binary32 number is a binary64 number. *)
Definition to_float (x : t) : float := SF2Prim x.

Definition mul (x y : t) : t := SFmul prec32 emax32 x y.

Definition one : t := of_float 1.

End F32.

Module Np.

Record ndarray2 (A : Type) : Type :=
  { shape2 : nat * nat; data2 : list (list A) }.
Record ndarray3 (A : Type) : Type :=
  { shape3 : nat * nat * nat; data3 : list (list (list A)) }.
#[global] Arguments shape2 {A} _.
#[global] Arguments data2 {A} _.
#[global] Arguments shape3 {A} _.
#[global] Arguments data3 {A} _.

(** The cells agree with the shape. *)
Definition wf3 {A} (a : ndarray3 A) : Prop :=
  let '(d0, d1, d2) := shape3 a in
  length (data3 a) = d0 /\
  Forall (fun plane =>
            length plane = d1 /\
            Forall (fun row => length row = d2) plane) (data3 a).

(** [a[l, r, :]] and [a[l, r, c]] for indices that are not negative;
    [None] outside the array. *)
Definition row3 {A} (a : ndarray3 A) (l r : nat) : option (list A) :=
  plane ← data3 a !! l; plane !! r.
Definition cell3 {A} (a : ndarray3 A) (l r c : nat) : option A :=
  row ← row3 a l r; row !! c.

(** A float scalar stored into an [int32] array: truncation toward zero,
    then two's complement.  NumPy leaves non-finite inputs to the
    platform; they are mapped to the smallest [int32] here. *)
Definition int32_wrap (z : Z) : Z := (z + 2 ^ 31) mod 2 ^ 32 - 2 ^ 31.
Definition int32_of_float (x : float) : Z :=
  match Prim2SF x with
  | S754_zero _ => 0
  | S754_finite s m e =>
      int32_wrap (cond_Zopp s (if 0 <=? e then Z.pos m * 2 ^ e
                               else Z.pos m / 2 ^ (- e)))
  | _ => - 2 ^ 31
  end.

(** [np.ones((d0, d1, d2), dtype)], with [one] the dtype's 1. *)
Definition ones {A} (one : A) (d0 d1 d2 : Z) : result (ndarray3 A) :=
  if (d0 <? 0) || (d1 <? 0) || (d2 <? 0) then Raise ValueError
  else
    let n0 := Z.to_nat d0 in
    let n1 := Z.to_nat d1 in
    let n2 := Z.to_nat d2 in
    Ok {| shape3 := (n0, n1, n2);
          data3 := replicate n0 (replicate n1 (replicate n2 one)) |}.

(** [a[:, :, idxs] = v]: the indices are checked against the third axis,
    then every row gets [v] at each of them. *)
Definition setitem_cols {A} (a : ndarray3 A) (idxs : list Z) (v : A)
  : result (ndarray3 A) :=
  js ← mapM (norm_index (shape3 a).2) idxs;
  Ok {| shape3 := shape3 a;
        data3 := (fun plane : list (list A) =>
                    (fun row : list A => foldl (fun r j => <[j:=v]> r) row js)
                      <$> plane) <$> data3 a |}.

(** [x * a] for a scalar and an array, cell by cell. *)
Definition scale {A} (mul : A -> A -> A) (x : A) (a : ndarray3 A) : ndarray3 A :=
  {| shape3 := shape3 a; data3 := (fun plane : list (list A) =>
                (fun row : list A => mul x <$> row) <$> plane) <$> data3 a |}.

(** [np.arange(0, num)] as floats. *)
Definition arange (num : nat) : list float :=
  (fun i => float_of_int (Z.of_nat i)) <$> seq 0 num.

(** [np.linspace(start, stop, num)] with the default [endpoint=True]:
    [arange(num) * step + start], the last sample overwritten with
    [stop]. *)
Definition linspace (start stop : float) (num : Z) : result (list float) :=
  if num <? 0 then Raise ValueError
  else
    let n := Z.to_nat num in
    let div := num - 1 in
    let delta := (stop - start)%float in
    let y := arange n in
    let y :=
      if 0 <? div then
        let step := (delta / float_of_int div)%float in
        if (step =? 0)%float
        then (fun v => (v / float_of_int div * delta)%float) <$> y
        else (fun v => (v * step)%float) <$> y
      else (fun v => (v * delta)%float) <$> y in
    let y := (fun v => (v + start)%float) <$> y in
    Ok (if 1 <? num then <[(n - 1)%nat := stop]> y else y).

(** [a[i, :, :]], [a[i, j, :]] and [a[:, j]]. *)
Definition plane {A} (a : ndarray3 A) (i : Z) : result (ndarray2 A) :=
  i' ← norm_index (shape3 a).1.1 i;
  match data3 a !! i' with
  | Some p => Ok {| shape2 := ((shape3 a).1.2, (shape3 a).2); data2 := p |}
  | None => Raise IndexError
  end.

Definition row {A} (a : ndarray3 A) (i j : Z) : result (list A) :=
  p ← plane a i;
  j' ← norm_index (shape2 p).1 j;
  match data2 p !! j' with Some r => Ok r | None => Raise IndexError end.

Definition column {A} (a : ndarray2 A) (j : Z) : result (list A) :=
  j' ← norm_index (shape2 a).2 j;
  mapM (fun r : list A =>
          match r !! j' with Some x => Ok x | None => Raise IndexError end)
       (data2 a).

End Np.

Import Np.

(** ** The script's parameters (lines 17-55 and 66-71) *)

Definition path2mf : string :=
  "C:/Users/Sam/Dropbox/Work/Models/MODFLOW/MF2005.1_12/bin/mf2005.exe".
Definition modelname : string := "SquareWithWell-Transient".

Definition Lx : float := 1000.
Definition Ly : float := 1000.
Definition ztop : float := 100.
Definition zbot : float := 0.
Definition nlay : Z := 1.
Definition nrow : Z := 50.
Definition ncol : Z := 100.
Definition delr : float := ok_value (truediv_fi Lx ncol) I.
Definition delc : float := ok_value (truediv_fi Ly nrow) I.
Definition delv : float := ok_value (truediv_fi (ztop - zbot) nlay) I.
Definition x_coord : list float :=
  ok_value (a ← truediv_fi delr 2; b ← truediv_fi delr 2;
            linspace a (Lx - b) ncol) I.
Definition y_coord : list float :=
  ok_value (a ← truediv_fi delc 2; b ← truediv_fi delc 2;
            linspace (Ly - a) b nrow) I.
Definition botm : list float := ok_value (linspace ztop zbot (nlay + 1)) I.
Definition hk : float := 1.
Definition vka : float := 1.
Definition sy : float := 0x1.999999999999ap-4.   (* 0.1 *)
Definition ss : float := 0x1.a36e2eb1c432dp-14.  (* 1.e-4 *)
Definition laytyp : Z := 1.

(** Lines 45-46: ones everywhere, then -1 in the first and last column. *)
Definition ibound : ndarray3 Z :=
  ok_value (a ← ones 1 nlay nrow ncol;
            setitem_cols a [0; ncol - 1] (int32_of_float (-1))) I.

(** Line 49. *)
Definition strt : ndarray3 F32.t :=
  ok_value (a ← ones F32.one nlay nrow ncol;
            Ok (scale F32.mul (F32.of_float 100) a)) I.

Definition nper : Z := 2.
Definition perlen : list Z := [100; 100].
Definition nstp : list Z := [100; 100].
Definition steady : list bool := [false; false].

(** Lines 66-71. *)
Definition r_well : Z := ok_value (x ← truediv_ii nrow 2; round x) I.
Definition c_well : Z := ok_value (x ← truediv_ii ncol 2; round x) I.
Definition wel_sp1 : list (list Z) := [[0; r_well; c_well; -1000]].
Definition wel_sp2 : list (list Z) := [[0; r_well; c_well; 0]].
Definition stress_period_data : gmap Z (list (list Z)) :=
  <[1 := wel_sp2]> (<[0 := wel_sp1]> ∅).

(** Line 95 and line 98: the plot extent and the well marker. *)
Definition extent : float * float * float * float :=
  ok_value (x0 ← getitem x_coord 0; x1 ← getitem x_coord (ncol - 1);
            y0 ← getitem y_coord 0; y1 ← getitem y_coord (nrow - 1);
            Ok (x0, x1, y0, y1)) I.
Definition wpt : float * float :=
  ok_value (hc ← truediv_ii ncol 2; rc ← round hc;
            hr ← truediv_ii nrow 2; rr ← round hr;
            Ok ((float_of_int rc + 0.5) * delr, (float_of_int rr + 0.5) * delc)%float) I.

(** Lines 116 and 119. *)
Definition idx : Z * Z * Z := (0, r_well, c_well).
Definition ttl : string :=
  "Head at cell (" +:+ pretty (idx.1.1 + 1) +:+ "," +:+ pretty (idx.1.2 + 1)
    +:+ "," +:+ pretty (idx.2 + 1) +:+ ")".

(** ** Calls into flopy and matplotlib *)

Module Ext.

(** A handle to an object made by a library (the model, a package, the
    head file). *)
Inductive obj : Type := Obj (id : nat).

Inductive kwarg : Type := KInt (z : Z) | KFloat (x : float) | KStr (s : string).
Inductive plot_data : Type := Scalar (x : float) | Series (xs : list float).

(** The calls the script makes, with the arguments it passes; the index
    is the type of what the call returns. *)
Inductive call : Type -> Type :=
| import_module (name : string) : call unit
| Modflow (modelname exe_name : string) : call obj
| ModflowDis (mf : obj) (nlay nrow ncol : Z) (delr delc top : float)
    (botm : list float) (nper : Z) (perlen nstp : list Z)
    (steady : list bool) : call obj
| ModflowBas (mf : obj) (ibound : ndarray3 Z) (strt : ndarray3 F32.t) : call obj
| ModflowLpf (mf : obj) (hk vka sy ss : float) (laytyp : Z) : call obj
| ModflowPcg (mf : obj) : call obj
| ModflowWel (mf : obj) (stress_period_data : gmap Z (list (list Z))) : call obj
| ModflowOc (mf : obj) (save_every compact : bool) : call obj
| write_input (mf : obj) : call unit
| run_model (mf : obj) (silent pause report : bool) : call (bool * list string)
| HeadFile (filename text : string) : call obj
| get_times (headobj : obj) : call (list float)
| get_data (headobj : obj) (totim : float) : call (ndarray3 float)
| get_ts (headobj : obj) (idx : Z * Z * Z) : call (ndarray2 float)
| plt_subplot (nrows ncols index : Z) : call unit
| plt_imshow (X : ndarray2 float) (extent : float * float * float * float)
    (cmap : string) : call unit
| plt_colorbar : call unit
| plt_plot (x y : plot_data) (kwargs : list (string * kwarg)) : call unit
| plt_show : call unit
| plt_title (label : string) : call unit
| plt_xlabel (label : string) : call unit
| plt_ylabel (label : string) : call unit.

(** A call together with how it ended: [inl what] when the library
    raised, [inr a] when it returned [a]. *)
Inductive event : Type :=
| Ev : forall A : Type, call A -> string + A -> event.
#[global] Arguments Ev {A} c r.

(** The libraries, the solver and the files behind them: what a call
    made after the events [h] answers. *)
Definition world : Type := forall A : Type, list event -> call A -> string + A.

(** The script's statements: a log of events and an exception or a
    value. *)
Definition M (A : Type) : Type := world -> list event -> list event * result A.

#[global] Instance M_ret : MRet M := fun _ a _ h => (h, Ok a).
#[global] Instance M_bind : MBind M := fun _ _ k m w h =>
  match m w h with
  | (h', inr a) => k a w h'
  | (h', inl e) => (h', inl e)
  end.

Definition raise {A} (e : exn) : M A := fun _ h => (h, Raise e).

(** An expression of the script that may raise. *)
Definition eval {A} (r : result A) : M A := fun _ h => (h, r).

Definition call_ext {A} (c : call A) : M A := fun w h =>
  let r := w A h c in
  (h ++ [Ev c r],
   match r with inl what => Raise (LibraryError what) | inr a => Ok a end).

End Ext.

Import Ext.

(** ** The script, top to bottom *)

Definition script : M unit :=
  _ ← call_ext (import_module "numpy");
  _ ← call_ext (import_module "flopy");
  _ ← call_ext (import_module "itertools");
  mf ← call_ext (Modflow modelname path2mf);
  dis ← call_ext (ModflowDis mf nlay nrow ncol delr delc ztop (drop 1 botm)
                             nper perlen nstp steady);
  bas ← call_ext (ModflowBas mf ibound strt);
  lpf ← call_ext (ModflowLpf mf hk vka sy ss laytyp);
  pcg ← call_ext (ModflowPcg mf);
  wel ← call_ext (ModflowWel mf stress_period_data);
  oc ← call_ext (ModflowOc mf true true);
  _ ← call_ext (write_input mf);
  '(success, mfoutput) ← call_ext (run_model mf true false true);
  _ ← (if negb success
       then raise (Exception "MODFLOW did not terminate normally.")
       else mret tt);
  _ ← call_ext (import_module "matplotlib.pyplot");
  _ ← call_ext (import_module "flopy.utils.binaryfile");
  headobj ← call_ext (HeadFile (modelname +:+ ".hds") "head");
  times ← call_ext (get_times headobj);
  time ← eval (getitem times 0);
  head ← call_ext (get_data headobj time);
  _ ← call_ext (plt_subplot 2 1 1);
  head0 ← eval (plane head 0);
  _ ← call_ext (plt_imshow head0 extent "BrBG");
  _ ← call_ext plt_colorbar;
  _ ← call_ext (plt_plot (Scalar wpt.1) (Scalar wpt.2)
                  [("lw", KInt 0); ("marker", KStr "o"); ("markersize", KInt 8);
                   ("markeredgewidth", KFloat 0.5);
                   ("markeredgecolor", KStr "black");
                   ("markerfacecolor", KStr "none"); ("zorder", KInt 9)]);
  _ ← call_ext (plt_subplot 2 1 2);
  head_row ← eval (row head 0 r_well);
  _ ← call_ext (plt_plot (Series x_coord) (Series head_row) []);
  _ ← call_ext plt_show;
  ts ← call_ext (get_ts headobj idx);
  _ ← call_ext (plt_subplot 1 1 1);
  _ ← call_ext (plt_title ttl);
  _ ← call_ext (plt_xlabel "time");
  _ ← call_ext (plt_ylabel "head");
  ts0 ← eval (column ts 0);
  ts1 ← eval (column ts 1);
  _ ← call_ext (plt_plot (Series ts0) (Series ts1) []);
  call_ext plt_show.

(** One run of the script in the world [w]. *)
Definition run (w : world) : list event * result unit := script w [].
Definition trace (w : world) : list event := (run w).1.
Definition outcome (w : world) : result unit := (run w).2.

(** ** Reading a trace *)

(** The name under which the script makes a call. *)
Definition name_of {A} (c : call A) : string :=
  match c with
  | import_module _ => "import"
  | Modflow _ _ => "flopy.modflow.Modflow"
  | ModflowDis _ _ _ _ _ _ _ _ _ _ _ _ => "flopy.modflow.ModflowDis"
  | ModflowBas _ _ _ => "flopy.modflow.ModflowBas"
  | ModflowLpf _ _ _ _ _ _ => "flopy.modflow.ModflowLpf"
  | ModflowPcg _ => "flopy.modflow.ModflowPcg"
  | ModflowWel _ _ => "flopy.modflow.ModflowWel"
  | ModflowOc _ _ _ => "flopy.modflow.ModflowOc"
  | write_input _ => "mf.write_input"
  | run_model _ _ _ _ => "mf.run_model"
  | HeadFile _ _ => "bf.HeadFile"
  | get_times _ => "headobj.get_times"
  | get_data _ _ => "headobj.get_data"
  | get_ts _ _ => "headobj.get_ts"
  | plt_subplot _ _ _ => "plt.subplot"
  | plt_imshow _ _ _ => "plt.imshow"
  | plt_colorbar => "plt.colorbar"
  | plt_plot _ _ _ => "plt.plot"
  | plt_show => "plt.show"
  | plt_title _ => "plt.title"
  | plt_xlabel _ => "plt.xlabel"
  | plt_ylabel _ => "plt.ylabel"
  end.

(** The steps of the run: building the model description, writing it out
    and running the solver, reading from the head file, plotting. *)
Inductive step : Type := Build | Solve | ReadHeads | Plot.

#[global] Instance step_eq_dec : EqDecision step.
Proof. solve_decision. Defined.

Definition step_of {A} (c : call A) : option step :=
  match c with
  | import_module _ => None
  | Modflow _ _ | ModflowDis _ _ _ _ _ _ _ _ _ _ _ _ | ModflowBas _ _ _
  | ModflowLpf _ _ _ _ _ _ | ModflowPcg _ | ModflowWel _ _ | ModflowOc _ _ _ =>
      Some Build
  | write_input _ | run_model _ _ _ _ => Some Solve
  | HeadFile _ _ | get_times _ | get_data _ _ | get_ts _ _ => Some ReadHeads
  | plt_subplot _ _ _ | plt_imshow _ _ _ | plt_colorbar | plt_plot _ _ _
  | plt_show | plt_title _ | plt_xlabel _ | plt_ylabel _ => Some Plot
  end.

Definition event_name (e : event) : string :=
  match e with Ev c _ => name_of c end.
Definition event_step (e : event) : option step :=
  match e with Ev c _ => step_of c end.
Definition returned (e : event) : bool :=
  match e with Ev _ (inr _) => true | Ev _ (inl _) => false end.

(** What the solver reported, for an event that is a [run_model] call
    that returned. *)
Definition reported (e : event) : option bool :=
  match e with
  | Ev c r =>
      match c in call A return string + A -> option bool with
      | run_model _ _ _ _ => fun r =>
          match r with inr (success, _) => Some success | inl _ => None end
      | _ => fun _ => None
      end r
  end.

Definition is_run_model (e : event) : bool :=
  bool_decide (event_name e = "mf.run_model").

Definition names (tr : list event) : list string := event_name <$> tr.

(** Consecutive calls of one step are one pass through that step. *)
Fixpoint merge_runs (l : list step) : list step :=
  match l with
  | [] => []
  | x :: l' =>
      match merge_runs l' with
      | y :: rest => if decide (x = y) then y :: rest else x :: y :: rest
      | [] => [x]
      end
  end.

Definition passes (tr : list event) : list step :=
  merge_runs (omap event_step tr).

(** How often the solver was started, and what it reported. *)
Definition solver_runs (tr : list event) : nat := length (filter is_run_model tr).
Definition solver_reports (tr : list event) : list bool := omap reported tr.

(** The calls of a complete run, in the order of the source. *)
Definition script_names : list string :=
  [ "import"; "import"; "import";
    "flopy.modflow.Modflow"; "flopy.modflow.ModflowDis";
    "flopy.modflow.ModflowBas"; "flopy.modflow.ModflowLpf";
    "flopy.modflow.ModflowPcg"; "flopy.modflow.ModflowWel";
    "flopy.modflow.ModflowOc"; "mf.write_input"; "mf.run_model";
    "import"; "import"; "bf.HeadFile"; "headobj.get_times";
    "headobj.get_data"; "plt.subplot"; "plt.imshow"; "plt.colorbar";
    "plt.plot"; "plt.subplot"; "plt.plot"; "plt.show";
    "headobj.get_ts"; "plt.subplot"; "plt.title"; "plt.xlabel";
    "plt.ylabel"; "plt.plot"; "plt.show" ].

(** ** Two worlds to run the script in *)

(** Every call returns; the solver reports [success]; the head file
    holds two times and a head of 100 in every cell. *)
Definition answers (success : bool) : world := fun A _ c =>
  match c in call A return string + A with
  | import_module _ => inr tt
  | Modflow _ _ => inr (Obj 0)
  | ModflowDis _ _ _ _ _ _ _ _ _ _ _ _ => inr (Obj 1)
  | ModflowBas _ _ _ => inr (Obj 2)
  | ModflowLpf _ _ _ _ _ _ => inr (Obj 3)
  | ModflowPcg _ => inr (Obj 4)
  | ModflowWel _ _ => inr (Obj 5)
  | ModflowOc _ _ _ => inr (Obj 6)
  | write_input _ => inr tt
  | run_model _ _ _ _ => inr (success, [])
  | HeadFile _ _ => inr (Obj 7)
  | get_times _ => inr [1; 2]%float
  | get_data _ _ => inr (ok_value (ones 100%float nlay nrow ncol) I)
  | get_ts _ _ =>
      inr {| shape2 := (2, 2)%nat; data2 := [[1; 100]; [2; 100]]%float |}
  | plt_subplot _ _ _ | plt_imshow _ _ _ | plt_colorbar | plt_plot _ _ _
  | plt_show | plt_title _ | plt_xlabel _ | plt_ylabel _ => inr tt
  end.

(** As [answers true], but writing the input files fails. *)
Definition disk_full : world := fun A h c =>
  match c in call A return string + A with
  | write_input _ => inl "OSError"
  | c' => answers true _ h c'
  end.

(** ** What the theorems speak about *)

(** A well entry is [[layer, row, column, flux]]. *)
Definition well_cell (entry : list Z) : list Z := take 3 entry.
Definition well_flux (entry : list Z) : option Z := entry !! 3%nat.

(** The grid positions, as NumPy sees them. *)
Definition in_grid (l r c : nat) : Prop :=
  Z.of_nat l < nlay /\ Z.of_nat r < nrow /\ Z.of_nat c < ncol.
Definition on_head_column (c : nat) : Prop :=
  Z.of_nat c = 0 \/ Z.of_nat c = ncol - 1.

#[local] Instance in_grid_dec l r c : Decision (in_grid l r c).
Proof. unfold in_grid. apply _. Defined.
#[local] Instance on_head_column_dec c : Decision (on_head_column c).
Proof. unfold on_head_column. apply _. Defined.

(** The heads of [strt]: the binary32 number 100. *)
Definition head_100 : F32.t := F32.mul (F32.of_float 100) F32.one.

(** The message of the script's own [raise]. *)
Definition did_not_terminate : string := "MODFLOW did not terminate normally.".

(** What the package constructors are given. *)
Definition built_from_parameters (e : event) : Prop :=
  match e with
  | Ev c _ =>
      match c with
      | Modflow name exe => name = modelname /\ exe = path2mf
      | ModflowDis _ l r c dr dc top b np pl ns st =>
          (l, r, c) = (nlay, nrow, ncol) /\ (dr, dc, top) = (delr, delc, ztop) /\
          b = drop 1 botm /\ np = nper /\ pl = perlen /\ ns = nstp /\ st = steady
      | ModflowBas _ ib st => ib = ibound /\ st = strt
      | ModflowLpf _ k kv y s t => (k, kv, y, s) = (hk, vka, sy, ss) /\ t = laytyp
      | ModflowWel _ spd => spd = stress_period_data
      | _ => True
      end
  end.

(** The passes of a complete run. *)
Definition script_passes : list step :=
  [Build; Solve; ReadHeads; Plot; ReadHeads; Plot].

(** The indexing expressions of the script raise nothing but
    [IndexError]. *)
Definition raises_only_IndexError {A} (r : result A) : Prop :=
  forall e, r = Raise e -> e = IndexError.

Definition holds (P : list event -> result unit -> Prop)
  (r : list event * result unit) : Prop := P r.1 r.2.

(** ** The grid and the well for other parameter values *)

(** Lines 31-49 as they run for any domain size and any cell counts: the
    arrays of the grid, or the exception of the first statement that
    raises. *)
Record grid : Type :=
  { g_delr : float; g_delc : float; g_delv : float;
    g_x_coord : list float; g_y_coord : list float; g_botm : list float;
    g_ibound : ndarray3 Z; g_strt : ndarray3 F32.t }.

Definition grid_setup (Lx Ly ztop zbot : float) (nlay nrow ncol : Z)
  : result grid :=
  delr ← truediv_fi Lx ncol;
  delc ← truediv_fi Ly nrow;
  delv ← truediv_fi (ztop - zbot) nlay;
  x_coord ← (a ← truediv_fi delr 2; b ← truediv_fi delr 2;
             linspace a (Lx - b) ncol);
  y_coord ← (a ← truediv_fi delc 2; b ← truediv_fi delc 2;
             linspace (Ly - a) b nrow);
  botm ← linspace ztop zbot (nlay + 1);
  ibound ← (a ← ones 1 nlay nrow ncol;
            setitem_cols a [0; ncol - 1] (int32_of_float (-1)));
  strt ← (a ← ones F32.one nlay nrow ncol;
          Ok (scale F32.mul (F32.of_float 100) a));
  Ok {| g_delr := delr; g_delc := delc; g_delv := delv;
        g_x_coord := x_coord; g_y_coord := y_coord; g_botm := botm;
        g_ibound := ibound; g_strt := strt |}.

(** Lines 66-67: [round(n/2)] for a cell count [n]. *)
Definition well_index (n : Z) : result Z := x ← truediv_ii n 2; round x.

(** Lines 66-71 for any cell counts. *)
Definition well_setup (nrow ncol : Z) : result (gmap Z (list (list Z))) :=
  r_well ← well_index nrow;
  c_well ← well_index ncol;
  let wel_sp1 := [[0; r_well; c_well; -1000]] in
  let wel_sp2 := [[0; r_well; c_well; 0]] in
  Ok (<[1 := wel_sp2]> (<[0 := wel_sp1]> ∅)).

(** The largest cell count the checks below run through. *)
Definition count_bound : Z := 10000.

(** [f] holds for [lo], [lo + 1], ..., [count] integers in all. *)
Fixpoint forall_range (f : Z -> bool) (lo : Z) (count : nat) : bool :=
  match count with
  | O => true
  | S c => f lo && forall_range f (lo + 1) c
  end.

(** What is checked of a cell count [n]: dividing by it and by its
    opposite is allowed, and [round(n/2)] is an index of the axis, an
    inner one from four cells on and the first or last one below. *)
Definition count_checked (n : Z) : bool :=
  negb (float_of_int n =? 0)%float && negb (float_of_int (- n) =? 0)%float &&
  match well_index n with
  | inr k =>
      (0 <=? k) && (k <? n) && (Z.abs (2 * k - n) <=? 1) &&
      (if 4 <=? n then (0 <? k) && (k <? n - 1)
       else (k =? 0) || (k =? n - 1))
  | inl _ => false
  end.

(** ** What the calls were given and what they returned *)

(** The model object a [Modflow] call returned, and the model object a
    package constructor, [write_input] or [run_model] was given. *)
Definition made_model (e : event) : option obj :=
  match e with
  | Ev c r =>
      match c in call A return string + A -> option obj with
      | Modflow _ _ => fun r => match r with inr mf => Some mf | inl _ => None end
      | _ => fun _ => None
      end r
  end.

Definition model_arg (e : event) : option obj :=
  match e with
  | Ev c _ =>
      match c with
      | ModflowDis mf _ _ _ _ _ _ _ _ _ _ _ | ModflowBas mf _ _
      | ModflowLpf mf _ _ _ _ _ | ModflowPcg mf | ModflowWel mf _
      | ModflowOc mf _ _ | write_input mf | run_model mf _ _ _ => Some mf
      | _ => None
      end
  end.

(** The same for the head file. *)
Definition opened_head_file (e : event) : option obj :=
  match e with
  | Ev c r =>
      match c in call A return string + A -> option obj with
      | HeadFile _ _ => fun r => match r with inr h => Some h | inl _ => None end
      | _ => fun _ => None
      end r
  end.

Definition head_file_arg (e : event) : option obj :=
  match e with
  | Ev c _ =>
      match c with
      | get_times h | get_data h _ | get_ts h _ => Some h
      | _ => None
      end
  end.

(** What [get_times], [get_data] and [get_ts] returned. *)
Definition times_read (e : event) : option (list float) :=
  match e with
  | Ev c r =>
      match c in call A return string + A -> option (list float) with
      | get_times _ => fun r => match r with inr ts => Some ts | inl _ => None end
      | _ => fun _ => None
      end r
  end.

Definition head_read (e : event) : option (ndarray3 float) :=
  match e with
  | Ev c r =>
      match c in call A return string + A -> option (ndarray3 float) with
      | get_data _ _ => fun r => match r with inr hd => Some hd | inl _ => None end
      | _ => fun _ => None
      end r
  end.

Definition ts_read (e : event) : option (ndarray2 float) :=
  match e with
  | Ev c r =>
      match c in call A return string + A -> option (ndarray2 float) with
      | get_ts _ _ => fun r => match r with inr ts => Some ts | inl _ => None end
      | _ => fun _ => None
      end r
  end.

(** The arguments of [get_data], [get_ts], [imshow] and of a [plot] of
    two series. *)
Definition totim_arg (e : event) : option float :=
  match e with
  | Ev c _ => match c with get_data _ t => Some t | _ => None end
  end.

Definition ts_cell_arg (e : event) : option (Z * Z * Z) :=
  match e with
  | Ev c _ => match c with get_ts _ i => Some i | _ => None end
  end.

Definition image_arg (e : event)
  : option (ndarray2 float * (float * float * float * float) * string) :=
  match e with
  | Ev c _ => match c with plt_imshow X ext cmap => Some (X, ext, cmap) | _ => None end
  end.

Definition series_arg (e : event) : option (list float * list float) :=
  match e with
  | Ev c _ =>
      match c with
      | plt_plot (Series xs) (Series ys) _ => Some (xs, ys)
      | _ => None
      end
  end.

(** The message of the last call when it raised. *)
Definition raised_last (tr : list event) : option string :=
  match last tr with
  | Some (Ev _ (inl what)) => Some what
  | _ => None
  end.

(** Calls that read the head file or plot. *)
Definition uses_results (e : event) : bool :=
  match event_step e with
  | Some ReadHeads | Some Plot => true
  | _ => false
  end.

(** More worlds: as [answers true], but the head file holds no time; but
    the time series has a single column; but the head has 20 rows; but
    the head has no layer. *)
Definition no_times : world := fun A h c =>
  match c in call A return string + A with
  | get_times _ => inr []
  | c' => answers true _ h c'
  end.

Definition one_column_ts : world := fun A h c =>
  match c in call A return string + A with
  | get_ts _ _ => inr {| shape2 := (2, 1)%nat; data2 := [[1]; [2]]%float |}
  | c' => answers true _ h c'
  end.

Definition short_head : world := fun A h c =>
  match c in call A return string + A with
  | get_data _ _ => inr (ok_value (ones 100%float 1 20 100) I)
  | c' => answers true _ h c'
  end.

Definition empty_head : world := fun A h c =>
  match c in call A return string + A with
  | get_data _ _ => inr (ok_value (ones 100%float 0 50 100) I)
  | c' => answers true _ h c'
  end.

(** ** Facts about the array operations *)

Lemma ok_value_spec {B} (r : result B) (H : is_Ok r) : r = Ok (ok_value r H).
Proof. destruct r as [e|b]; [destruct H | reflexivity]. Qed.

Lemma ok_value_elim {B} (P : B -> Prop) (r : result B) (H : is_Ok r) :
  (forall b, r = Ok b -> P b) -> P (ok_value r H).
Proof. intros HP. apply HP, ok_value_spec. Qed.

Section ArrayFacts.
Context {A : Type}.
Implicit Types (a : ndarray3 A) (v : A) (row : list A).

Lemma ones_shape v d0 d1 d2 a :
  ones v d0 d1 d2 = Ok a ->
  shape3 a = (Z.to_nat d0, Z.to_nat d1, Z.to_nat d2) /\ wf3 a.
Proof.
  unfold ones, Ok, Raise. case_match; [discriminate|]. intros [= <-].
  split; [reflexivity|]. unfold wf3; simpl.
  split; [apply length_replicate|].
  apply Forall_replicate. split; [apply length_replicate|].
  apply Forall_replicate, length_replicate.
Qed.

Lemma cell3_ones v d0 d1 d2 a l r c :
  ones v d0 d1 d2 = Ok a ->
  cell3 a l r c =
    if bool_decide (l < Z.to_nat d0 /\ r < Z.to_nat d1 /\ c < Z.to_nat d2)%nat
    then Some v else None.
Proof.
  unfold ones, Ok, Raise. case_match; [discriminate|]. intros [= <-].
  unfold cell3, row3; simpl.
  destruct (decide (l < Z.to_nat d0)%nat) as [Hl|Hl].
  2:{ rewrite (proj1 (lookup_replicate_None _ _ _)) by lia. simpl.
      rewrite bool_decide_eq_false_2 by lia. reflexivity. }
  rewrite lookup_replicate_2 by assumption. simpl.
  destruct (decide (r < Z.to_nat d1)%nat) as [Hr|Hr].
  2:{ rewrite (proj1 (lookup_replicate_None _ _ _)) by lia. simpl.
      rewrite bool_decide_eq_false_2 by lia. reflexivity. }
  rewrite lookup_replicate_2 by assumption. simpl.
  destruct (decide (c < Z.to_nat d2)%nat) as [Hc|Hc].
  - rewrite lookup_replicate_2 by assumption.
    rewrite bool_decide_eq_true_2 by lia. reflexivity.
  - rewrite (proj1 (lookup_replicate_None _ _ _)) by lia.
    rewrite bool_decide_eq_false_2 by lia. reflexivity.
Qed.

(** Storing [v] at the indices [js] of one row. *)
Lemma lookup_store_row v js : forall row c,
  foldl (fun r j => <[j:=v]> r) row js !! c =
    (fun x => if bool_decide (c ∈ js) then v else x) <$> row !! c.
Proof.
  induction js as [|j js IH]; intros row c; simpl.
  - destruct (row !! c); reflexivity.
  - rewrite IH. destruct (decide (c = j)) as [->|Hne].
    + destruct (decide (j < length row)%nat) as [Hlt|Hge].
      * rewrite list_lookup_insert_eq by assumption.
        destruct (lookup_lt_is_Some_2 row j Hlt) as [x ->]. simpl.
        rewrite (bool_decide_eq_true_2 (j ∈ j :: js)) by apply list_elem_of_here.
        case_bool_decide; reflexivity.
      * rewrite list_insert_ge by lia.
        rewrite (lookup_ge_None_2 row j) by lia. reflexivity.
    + rewrite list_lookup_insert_ne by congruence.
      destruct (row !! c); simpl; [|reflexivity].
      f_equal. repeat case_bool_decide; try reflexivity.
      * exfalso. rewrite elem_of_cons in *. tauto.
      * exfalso. rewrite elem_of_cons in *. tauto.
Qed.

Lemma length_store_row v js : forall row,
  length (foldl (fun r j => <[j:=v]> r) row js) = length row.
Proof.
  induction js as [|j js IH]; intros row; simpl; [reflexivity|].
  rewrite IH. apply length_insert.
Qed.

End ArrayFacts.

Section ArrayUpdates.
Context {A : Type}.
Implicit Types (a : ndarray3 A) (v : A).

Lemma setitem_cols_inv a idxs v a' :
  setitem_cols a idxs v = Ok a' ->
  exists js,
    mapM (norm_index (shape3 a).2) idxs = Ok js /\
    shape3 a' = shape3 a /\
    data3 a' = (fun plane : list (list A) =>
                  (fun row : list A => foldl (fun r j => <[j:=v]> r) row js)
                    <$> plane) <$> data3 a.
Proof.
  unfold setitem_cols, mbind, result_bind.
  destruct (mapM _ idxs) as [e|js]; [discriminate|].
  intros [= <-]. exists js. auto.
Qed.

Lemma cell3_setitem_cols a idxs v a' l r c :
  setitem_cols a idxs v = Ok a' ->
  exists js,
    mapM (norm_index (shape3 a).2) idxs = Ok js /\
    cell3 a' l r c =
      (fun x => if bool_decide (c ∈ js) then v else x) <$> cell3 a l r c.
Proof.
  intros (js & Hjs & _ & Hd)%setitem_cols_inv. exists js. split; [exact Hjs|].
  unfold cell3, row3. rewrite Hd, list_lookup_fmap.
  destruct (data3 a !! l) as [plane|]; simpl; [|reflexivity].
  rewrite list_lookup_fmap.
  destruct (plane !! r) as [row|]; simpl; [|reflexivity].
  apply lookup_store_row.
Qed.

Lemma wf3_setitem_cols a idxs v a' :
  setitem_cols a idxs v = Ok a' -> wf3 a -> wf3 a'.
Proof.
  intros (js & _ & Hs & Hd)%setitem_cols_inv. unfold wf3.
  rewrite Hs, Hd. destruct (shape3 a) as [[d0 d1] d2].
  intros [Hlen Hall]. split; [now rewrite length_fmap|].
  apply Forall_fmap. eapply Forall_impl; [exact Hall|].
  intros plane [Hp Hrows]; simpl. split; [now rewrite length_fmap|].
  apply Forall_fmap. eapply Forall_impl; [exact Hrows|].
  intros row Hrow; simpl. now rewrite length_store_row.
Qed.

Lemma cell3_scale (mul : A -> A -> A) x a l r c :
  cell3 (scale mul x a) l r c = mul x <$> cell3 a l r c.
Proof.
  unfold cell3, row3, scale; simpl. rewrite list_lookup_fmap.
  destruct (data3 a !! l) as [plane|]; simpl; [|reflexivity].
  rewrite list_lookup_fmap.
  destruct (plane !! r) as [row|]; simpl; [|reflexivity].
  apply list_lookup_fmap.
Qed.

Lemma wf3_scale (mul : A -> A -> A) x a : wf3 a -> wf3 (scale mul x a).
Proof.
  unfold wf3, scale; simpl. destruct (shape3 a) as [[d0 d1] d2].
  intros [Hlen Hall]. split; [now rewrite length_fmap|].
  apply Forall_fmap. eapply Forall_impl; [exact Hall|].
  intros plane [Hp Hrows]; simpl. split; [now rewrite length_fmap|].
  apply Forall_fmap. eapply Forall_impl; [exact Hrows|].
  intros row Hrow; simpl. now rewrite length_fmap.
Qed.

End ArrayUpdates.

Lemma length_arange n : length (arange n) = n.
Proof. unfold arange. now rewrite length_fmap, length_seq. Qed.

Lemma linspace_length start stop num l :
  linspace start stop num = Ok l -> length l = Z.to_nat num.
Proof.
  unfold linspace, Ok, Raise. case_match; [discriminate|]. intros [= <-].
  assert (Hy : forall y : list float,
             length (if 1 <? num then <[(Z.to_nat num - 1)%nat := stop]> y else y)
             = length y).
  { intros y. case_match; [apply length_insert|reflexivity]. }
  rewrite Hy, length_fmap.
  repeat case_match; now rewrite length_fmap, length_arange.
Qed.

(** How the two arrays of the script are built. *)
Lemma ibound_built :
  exists a0, ones 1 nlay nrow ncol = Ok a0 /\
             setitem_cols a0 [0; ncol - 1] (-1) = Ok ibound.
Proof.
  eexists. split; [reflexivity|]. vm_compute. reflexivity.
Qed.

Lemma strt_built :
  exists a0, ones F32.one nlay nrow ncol = Ok a0 /\
             strt = scale F32.mul (F32.of_float 100) a0.
Proof.
  eexists. split; [reflexivity|]. vm_compute. reflexivity.
Qed.

Lemma in_grid_iff (l r c : nat) :
  (l < Z.to_nat nlay /\ r < Z.to_nat nrow /\ c < Z.to_nat ncol)%nat <->
  Z.of_nat l < nlay /\ Z.of_nat r < nrow /\ Z.of_nat c < ncol.
Proof. unfold nlay, nrow, ncol. lia. Qed.

(** The cells of [ibound]: the ones of the grid, overwritten at the two
    stored column indices. *)
Lemma ibound_cells (l r c : nat) :
  cell3 ibound l r c =
    (fun x => if bool_decide (c ∈ [0; 99]%nat) then -1 else x)
      <$> (if bool_decide (in_grid l r c) then Some 1 else None).
Proof.
  destruct ibound_built as (a0 & Hones & Hset).
  destruct (cell3_setitem_cols _ _ _ _ l r c Hset) as (js & Hjs & ->).
  rewrite (cell3_ones _ _ _ _ _ l r c Hones).
  apply ones_shape in Hones as [Hshape _]. rewrite Hshape in Hjs.
  assert (js = [0; 99]%nat) as -> by (vm_compute in Hjs; congruence).
  rewrite (bool_decide_ext _ _ (in_grid_iff l r c)). reflexivity.
Qed.

(** ** The parameters: cell sizes, boundary array, initial heads, well *)

(** C1: the well data has exactly the keys 0 and 1, each with a list of one
    entry at the same cell; the flux is -1000 (nonzero) in period one
    (key 0) and exactly 0 in period two (key 1). *)
Theorem well_flux_by_period :
  dom stress_period_data = ({[0; 1]} : gset Z) /\
  exists e1 e2 : list Z,
    stress_period_data !! 0 = Some [e1] /\
    stress_period_data !! 1 = Some [e2] /\
    well_cell e1 = [0; r_well; c_well] /\
    well_cell e2 = well_cell e1 /\
    well_flux e1 = Some (-1000) /\ -1000 <> 0 /\
    well_flux e2 = Some 0.
Proof.
  split.
  - unfold stress_period_data.
    rewrite !dom_insert_L, dom_empty_L. set_solver.
  - exists [0; r_well; c_well; -1000], [0; r_well; c_well; 0].
    unfold stress_period_data.
    rewrite lookup_insert_ne, lookup_insert_eq, lookup_insert_eq by lia.
    repeat split; lia.
Qed.

(** C2: a cell of [ibound] exists exactly at the positions of the
    (nlay, nrow, ncol) grid; it is -1 in column 0 and in column ncol-1 and
    1 in every other column. *)
Theorem ibound_head_columns (l r c : nat) :
  cell3 ibound l r c =
    if bool_decide (in_grid l r c)
    then Some (if bool_decide (on_head_column c) then -1 else 1)
    else None.
Proof.
  rewrite ibound_cells.
  assert (Hcol : c ∈ [0; 99]%nat <-> on_head_column c).
  { unfold on_head_column, ncol. rewrite !elem_of_cons, elem_of_nil. lia. }
  rewrite (bool_decide_ext _ _ Hcol).
  destruct (bool_decide (in_grid l r c)); reflexivity.
Qed.

(** C3: [delr] is [Lx / ncol] and [delc] is [Ly / nrow]; they are 10 and
    20, and the divisions are exact: the operands and the quotients are
    integers with 10 * 100 = 1000 and 20 * 50 = 1000. *)
Theorem cell_sizes_exact :
  truediv_fi Lx ncol = Ok delr /\ truediv_fi Ly nrow = Ok delc /\
  delr = 10%float /\ delc = 20%float /\
  as_integer Lx = Some 1000 /\ as_integer Ly = Some 1000 /\
  ncol = 100 /\ nrow = 50 /\
  as_integer delr = Some 10 /\ as_integer delc = Some 20 /\
  10 * ncol = 1000 /\ 20 * nrow = 1000.
Proof. vm_compute. repeat split; reflexivity. Qed.

(** C5: [ibound] and [strt] have shape (nlay, nrow, ncol) = (1, 50, 100)
    and their cells fill that shape; [botm] has nlay + 1 entries, [x_coord]
    has ncol and [y_coord] has nrow. *)
Theorem arrays_match_grid :
  shape3 ibound = (Z.to_nat nlay, Z.to_nat nrow, Z.to_nat ncol) /\
  shape3 strt = (Z.to_nat nlay, Z.to_nat nrow, Z.to_nat ncol) /\
  (Z.to_nat nlay, Z.to_nat nrow, Z.to_nat ncol) = (1, 50, 100)%nat /\
  wf3 ibound /\ wf3 strt /\
  Z.of_nat (length botm) = nlay + 1 /\
  Z.of_nat (length x_coord) = ncol /\
  Z.of_nat (length y_coord) = nrow.
Proof.
  destruct ibound_built as (a0 & Hones & Hset).
  destruct strt_built as (s0 & Hsones & ->).
  pose proof (ones_shape _ _ _ _ _ Hones) as [Hshape Hwf].
  pose proof (ones_shape _ _ _ _ _ Hsones) as [Hsshape Hswf].
  pose proof (setitem_cols_inv _ _ _ _ Hset) as (_ & _ & Hsh & _).
  split; [congruence|]. split; [exact Hsshape|]. split; [reflexivity|].
  split; [eapply wf3_setitem_cols; eassumption|].
  split; [apply wf3_scale, Hswf|].
  unfold botm, x_coord, y_coord.
  split; [|split]; apply ok_value_elim; intros xs Hxs.
  - apply linspace_length in Hxs. rewrite Hxs. reflexivity.
  - unfold mbind, result_bind in Hxs.
    destruct (truediv_fi delr 2) as [|a]; [discriminate|].
    apply linspace_length in Hxs. rewrite Hxs. reflexivity.
  - unfold mbind, result_bind in Hxs.
    destruct (truediv_fi delc 2) as [|a]; [discriminate|].
    apply linspace_length in Hxs. rewrite Hxs. reflexivity.
Qed.

Lemma strt_cells (l r c : nat) :
  cell3 strt l r c = if bool_decide (in_grid l r c) then Some head_100 else None.
Proof.
  destruct strt_built as (s0 & Hones & ->).
  rewrite cell3_scale, (cell3_ones _ _ _ _ _ l r c Hones).
  rewrite (bool_decide_ext _ _ (in_grid_iff l r c)). fold (in_grid l r c).
  destruct (bool_decide (in_grid l r c)); reflexivity.
Qed.

(** C8: [r_well] is [round(nrow/2)] = 25 and [c_well] is [round(ncol/2)]
    = 50; both are inside the grid, the column is neither 0 nor ncol-1,
    and the cell of every well entry of every stress period holds 1 in
    [ibound]. *)
Theorem well_in_active_cell :
  (x ← truediv_ii nrow 2; round x) = Ok r_well /\
  (x ← truediv_ii ncol 2; round x) = Ok c_well /\
  r_well = 25 /\ c_well = 50 /\
  0 <= r_well < nrow /\ 0 <= c_well < ncol /\
  c_well <> 0 /\ c_well <> ncol - 1 /\
  cell3 ibound 0 (Z.to_nat r_well) (Z.to_nat c_well) = Some 1 /\
  map_Forall (fun _ entries =>
    Forall (fun e => well_cell e = [0; r_well; c_well]) entries)
    stress_period_data.
Proof.
  assert (Hr : r_well = 25) by (vm_compute; reflexivity).
  assert (Hc : c_well = 50) by (vm_compute; reflexivity).
  split; [unfold r_well; apply ok_value_spec|].
  split; [unfold c_well; apply ok_value_spec|].
  split; [exact Hr|]. split; [exact Hc|].
  rewrite Hr, Hc. unfold nrow, ncol.
  repeat (split; [lia|]).
  split.
  - rewrite ibound_cells.
    rewrite (bool_decide_eq_true_2 (in_grid _ _ _))
      by (unfold in_grid, nlay, nrow, ncol; lia).
    reflexivity.
  - unfold stress_period_data.
    apply map_Forall_insert_2; [|apply map_Forall_insert_2; [|apply map_Forall_empty]];
      (apply Forall_cons; split; [reflexivity|apply Forall_nil_2]).
Qed.

(** C9: every cell of [strt] is the binary32 number 100.0, and so is in
    particular every cell that [ibound] marks -1. *)
Theorem strt_is_100_everywhere :
  (forall l r c : nat,
     cell3 strt l r c = if bool_decide (in_grid l r c) then Some head_100 else None) /\
  F32.to_float head_100 = 100%float /\
  head_100 = F32.of_float 100 /\
  (forall l r c : nat,
     cell3 ibound l r c = Some (-1) -> cell3 strt l r c = Some head_100).
Proof.
  split; [exact strt_cells|].
  split; [vm_compute; reflexivity|].
  split; [vm_compute; reflexivity|].
  intros l r c. rewrite ibound_cells, strt_cells.
  destruct (bool_decide (in_grid l r c)); [reflexivity|discriminate].
Qed.

Lemma strt_is_100_everywhere_witness :
  cell3 strt 0 7 3 = Some head_100 /\ cell3 strt 0 12 99 = Some head_100.
Proof.
  split.
  - rewrite (proj1 strt_is_100_everywhere 0 7 3)%nat. reflexivity.
  - apply (proj2 (proj2 (proj2 strt_is_100_everywhere)) 0 12 99)%nat.
    rewrite ibound_cells. reflexivity.
Defined.

(** C10: [perlen], [nstp] and [steady] have nper = 2 entries, the keys of
    the well data are exactly 0 .. nper-1, and so every stress period has
    a length, a step count, a steady flag and a well list. *)
Theorem stress_periods_consistent :
  nper = 2 /\
  Z.of_nat (length perlen) = nper /\
  Z.of_nat (length nstp) = nper /\
  Z.of_nat (length steady) = nper /\
  dom stress_period_data = ({[0; 1]} : gset Z) /\
  dom stress_period_data = list_to_set (seqZ 0 nper) /\
  Forall (fun k : Z =>
            is_Some (perlen !! Z.to_nat k) /\
            is_Some (nstp !! Z.to_nat k) /\
            is_Some (steady !! Z.to_nat k) /\
            is_Some (stress_period_data !! k)) (seqZ 0 nper).
Proof.
  assert (Hdom : dom stress_period_data = ({[0; 1]} : gset Z)).
  { unfold stress_period_data. rewrite !dom_insert_L, dom_empty_L. set_solver. }
  do 4 (split; [reflexivity|]).
  split; [exact Hdom|].
  split.
  - rewrite Hdom. change (seqZ 0 nper) with [0; 1]. set_solver.
  - change (seqZ 0 nper) with [0; 1].
    repeat constructor; simpl; eauto.
Qed.

(** The two plot annotations and the title, as the script computes them. *)
Example plot_annotations :
  extent = (5, 995, 990, 10)%float /\ wpt = (505, 510)%float /\
  ttl = "Head at cell (1,26,51)".
Proof. vm_compute. repeat split; reflexivity. Qed.

Example run_completes :
  outcome (answers true) = Ok tt /\
  names (trace (answers true)) = script_names.
Proof. vm_compute. split; reflexivity. Qed.

Example run_stops_when_solver_fails :
  outcome (answers false) =
    Raise (Exception "MODFLOW did not terminate normally.") /\
  names (trace (answers false)) = take 12 script_names.
Proof. vm_compute. split; reflexivity. Qed.

Example run_stops_when_disk_full :
  outcome disk_full = Raise (LibraryError "OSError") /\
  names (trace disk_full) = take 11 script_names /\
  solver_runs (trace disk_full) = 0%nat.
Proof. vm_compute. repeat split; reflexivity. Qed.

(** ** Running the script against an arbitrary world *)

Section Stepping.
Context {A B : Type}.
Implicit Types (k : A -> M B) (w : world) (h : list event).

Lemma bind_call (c : call A) k w h :
  (call_ext c ≫= k) w h =
    match w A h c with
    | inl what => (h ++ [Ev c (inl what)], Raise (LibraryError what))
    | inr a => k a w (h ++ [Ev c (inr a)])
    end.
Proof. unfold mbind, M_bind, call_ext. destruct (w A h c); reflexivity. Qed.

Lemma bind_eval (r : result A) k w h :
  (eval r ≫= k) w h =
    match r with inl e => (h, Raise e) | inr a => k a w h end.
Proof. unfold mbind, M_bind, eval. destruct r; reflexivity. Qed.

Lemma bind_raise (e : exn) k w h : (raise e ≫= k) w h = (h, Raise e).
Proof. reflexivity. Qed.

Lemma bind_ret (a : A) k w h : (mret a ≫= k) w h = k a w h.
Proof. reflexivity. Qed.

Lemma last_call (c : call A) w h :
  call_ext c w h =
    match w A h c with
    | inl what => (h ++ [Ev c (inl what)], Raise (LibraryError what))
    | inr a => (h ++ [Ev c (inr a)], Ok a)
    end.
Proof. unfold call_ext. destruct (w A h c); reflexivity. Qed.

End Stepping.

Create HintDb raises.

Lemma Ok_raises {A} (a : A) : raises_only_IndexError (Ok a).
Proof. intros e. discriminate. Qed.

Lemma IndexError_raises {A} : raises_only_IndexError (A:=A) (Raise IndexError).
Proof. intros e [= <-]. reflexivity. Qed.

Lemma bind_raises {A B} (r : result A) (k : A -> result B) :
  raises_only_IndexError r -> (forall a, raises_only_IndexError (k a)) ->
  raises_only_IndexError (r ≫= k).
Proof.
  intros Hr Hk e. destruct r as [e'|a]; simpl.
  - intros [= <-]. now apply Hr.
  - apply Hk.
Qed.

Lemma norm_index_raises n i : raises_only_IndexError (norm_index n i).
Proof.
  unfold norm_index. repeat case_match;
    auto using @Ok_raises, @IndexError_raises.
Qed.

Lemma lookup_raises {A} (o : option A) :
  raises_only_IndexError
    (match o with Some a => Ok a | None => Raise IndexError end).
Proof. destruct o; auto using @Ok_raises, @IndexError_raises. Qed.

Lemma getitem_raises {A} (l : list A) i : raises_only_IndexError (getitem l i).
Proof.
  apply bind_raises; [apply norm_index_raises|]. intros j. apply lookup_raises.
Qed.

Lemma plane_raises {A} (a : ndarray3 A) i : raises_only_IndexError (plane a i).
Proof.
  apply bind_raises; [apply norm_index_raises|]. intros j.
  destruct (data3 a !! j); auto using @Ok_raises, @IndexError_raises.
Qed.

Lemma row_raises {A} (a : ndarray3 A) i j : raises_only_IndexError (row a i j).
Proof.
  apply bind_raises; [apply plane_raises|]. intros p.
  apply bind_raises; [apply norm_index_raises|]. intros j'. apply lookup_raises.
Qed.

Lemma mapM_raises {A B} (f : A -> result B) (l : list A) :
  (forall a, raises_only_IndexError (f a)) ->
  raises_only_IndexError (mapM f l).
Proof.
  intros Hf. induction l as [|a l IH]; simpl; [apply Ok_raises|].
  apply bind_raises; [apply Hf|]. intros b.
  apply bind_raises; [apply IH|]. intros k. apply Ok_raises.
Qed.

Lemma column_raises {A} (a : ndarray2 A) j : raises_only_IndexError (column a j).
Proof.
  apply bind_raises; [apply norm_index_raises|]. intros j'.
  apply mapM_raises. intros r. apply lookup_raises.
Qed.

#[global] Hint Resolve getitem_raises plane_raises row_raises column_raises : raises.

(** One statement of the script: a call that raises ends the run, a call
    that returns goes on; likewise for the indexing expressions and for
    the check of the solver's flag. *)
Ltac run_statement :=
  lazymatch goal with
  | |- holds _ ((call_ext _ ≫= _) _ _) =>
      rewrite bind_call;
      lazymatch goal with
      | |- holds _ (match ?r with inl _ => _ | inr _ => _ end) =>
          let what := fresh "what" in
          let x := fresh "x" in
          destruct r as [what|x];
          [ | try lazymatch type of x with
                  | (bool * _)%type =>
                      let ok := fresh "success" in
                      destruct x as [ok ?]; destruct ok
                  end ];
          cbv beta iota; cbn [app negb]
      end
  | |- holds _ ((eval _ ≫= _) _ _) =>
      rewrite bind_eval;
      lazymatch goal with
      | |- holds _ (match ?r with inl _ => _ | inr _ => _ end) =>
          let Hr := fresh "Hr" in
          let e := fresh "e" in
          assert (Hr : raises_only_IndexError r) by auto with raises;
          destruct r as [e|?];
          [ rewrite (Hr e eq_refl) | ]; clear Hr; cbv beta iota
      end
  | |- holds _ ((raise _ ≫= _) _ _) => rewrite bind_raise
  | |- holds _ ((mret _ ≫= _) _ _) => rewrite bind_ret; cbv beta
  | |- holds _ (call_ext _ _ _) =>
      rewrite last_call;
      lazymatch goal with
      | |- holds _ (match ?r with inl _ => _ | inr _ => _ end) => destruct r
      end
  end.

(** A run that has ended: the property is about a known log. *)
Ltac run_ended tac :=
  lazymatch goal with
  | |- holds _ (pair _ _) => unfold holds; cbn [fst snd]; tac
  end.

Ltac run_script tac :=
  unfold script; repeat (run_statement; try run_ended tac).

Ltac settle :=
  vm_compute; repeat split; intros;
  try discriminate; try congruence; try lia;
  try (match goal with H : inl _ = inl _ |- _ => injection H as <- end);
  try (repeat split; reflexivity);
  try (eexists; reflexivity).

(** ** The success check, the order of the calls, the solver call *)

(** C4: when [run_model] reports failure the script raises its exception
    and stops there, the solver call being the last thing it did; when it
    reports success the script does not raise its exception and goes on
    with the statement below the check, reaching [HeadFile] on the model's
    [.hds] file once the two imports in between return; and the script's
    own exception arises in no other way. *)
Theorem success_check (w : world) :
  (solver_reports (trace w) = [false] ->
     outcome w = Raise (Exception did_not_terminate) /\
     is_run_model <$> last (trace w) = Some true) /\
  (solver_reports (trace w) = [true] ->
     (forall msg, outcome w <> Raise (Exception msg)) /\
     event_name <$> trace w !! 12%nat = Some "import" /\
     (returned <$> trace w !! 12%nat = Some true ->
      returned <$> trace w !! 13%nat = Some true ->
      exists r, trace w !! 14%nat =
                  Some (Ev (HeadFile (modelname +:+ ".hds") "head") r))) /\
  (forall msg, outcome w = Raise (Exception msg) ->
     solver_reports (trace w) = [false] /\ msg = did_not_terminate).
Proof.
  change (holds (fun tr out =>
    (solver_reports tr = [false] ->
       out = Raise (Exception did_not_terminate) /\
       is_run_model <$> last tr = Some true) /\
    (solver_reports tr = [true] ->
       (forall msg, out <> Raise (Exception msg)) /\
       event_name <$> tr !! 12%nat = Some "import" /\
       (returned <$> tr !! 12%nat = Some true ->
        returned <$> tr !! 13%nat = Some true ->
        exists r, tr !! 14%nat =
                    Some (Ev (HeadFile (modelname +:+ ".hds") "head") r))) /\
    (forall msg, out = Raise (Exception msg) ->
       solver_reports tr = [false] /\ msg = did_not_terminate))
    (script w [])).
  run_script settle.
Qed.

Lemma success_check_witness :
  (outcome (answers false) = Raise (Exception did_not_terminate) /\
   is_run_model <$> last (trace (answers false)) = Some true) /\
  (exists r, trace (answers true) !! 14%nat =
               Some (Ev (HeadFile (modelname +:+ ".hds") "head") r)).
Proof.
  split.
  - apply (proj1 (success_check (answers false))). vm_compute. reflexivity.
  - apply (proj1 (proj2 (success_check (answers true)))); vm_compute; reflexivity.
Defined.

(** C6, as stated, fails: in a run that completes, the head file is read
    and plotted, and then read and plotted again. *)
Lemma one_pass_per_step_fails :
  outcome (answers true) = Ok tt /\
  passes (trace (answers true)) <> [Build; Solve; ReadHeads; Plot] /\
  ~ NoDup (passes (trace (answers true))).
Proof.
  split; [vm_compute; reflexivity|].
  assert (H : passes (trace (answers true)) = script_passes)
    by (vm_compute; reflexivity).
  rewrite H. split; [discriminate|].
  apply (proj1 (bool_decide_eq_false (NoDup script_passes))). reflexivity.
Qed.

(** C6, amended: the calls of every run are an initial part of one fixed
    list, and its passes an initial part of: build, solve, read heads,
    plot, read heads, plot; the constructors are given the parameters;
    a run that completes makes all the calls of the list. *)
Theorem call_sequence (w : world) :
  names (trace w) = take (length (trace w)) script_names /\
  passes (trace w) = take (length (passes (trace w))) script_passes /\
  Forall built_from_parameters (trace w) /\
  (outcome w = Ok tt ->
   names (trace w) = script_names /\ passes (trace w) = script_passes).
Proof.
  change (holds (fun tr out =>
    names tr = take (length tr) script_names /\
    passes tr = take (length (passes tr)) script_passes /\
    Forall built_from_parameters tr /\
    (out = Ok tt -> names tr = script_names /\ passes tr = script_passes))
    (script w [])).
  run_script ltac:(
    split; [vm_compute; reflexivity|];
    split; [vm_compute; reflexivity|];
    split;
    [ repeat (apply Forall_cons; split;
              [cbv beta iota delta [built_from_parameters];
               repeat split; reflexivity|]);
      apply Forall_nil_2
    | vm_compute; intros; try discriminate; split; reflexivity ]).
Qed.

Lemma call_sequence_witness :
  names (trace (answers true)) = script_names /\
  passes (trace (answers true)) = script_passes.
Proof.
  apply (proj2 (proj2 (proj2 (call_sequence (answers true))))).
  vm_compute. reflexivity.
Defined.

(** C7: no run starts the solver twice; a run in which the imports, the
    constructors and [write_input] return starts it exactly once, and
    the only runs that never start it are those a library call ended
    before; when the solver reports failure it has been started once and
    nothing is called after it. *)
Theorem solver_called_once (w : world) :
  (solver_runs (trace w) <= 1)%nat /\
  (forallb returned (take 11 (trace w)) = true ->
   solver_runs (trace w) = 1%nat) /\
  (solver_runs (trace w) = 0%nat ->
   exists what, outcome w = Raise (LibraryError what)) /\
  (solver_reports (trace w) = [false] ->
   solver_runs (trace w) = 1%nat /\
   is_run_model <$> last (trace w) = Some true).
Proof.
  change (holds (fun tr out =>
    (solver_runs tr <= 1)%nat /\
    (forallb returned (take 11 tr) = true -> solver_runs tr = 1%nat) /\
    (solver_runs tr = 0%nat -> exists what, out = Raise (LibraryError what)) /\
    (solver_reports tr = [false] ->
     solver_runs tr = 1%nat /\ is_run_model <$> last tr = Some true))
    (script w [])).
  run_script settle.
Qed.

Lemma solver_called_once_witness :
  solver_runs (trace (answers true)) = 1%nat /\
  (solver_runs (trace (answers false)) = 1%nat /\
   is_run_model <$> last (trace (answers false)) = Some true).
Proof.
  split.
  - apply (proj1 (proj2 (solver_called_once (answers true)))).
    vm_compute. reflexivity.
  - apply (proj2 (proj2 (proj2 (solver_called_once (answers false))))).
    vm_compute. reflexivity.
Defined.

(** ** Other grids: which parameters the set-up accepts *)

Lemma bind_Ok_inv {A B} (r : result A) (k : A -> result B) (b : B) :
  r ≫= k = Ok b -> exists a, r = Ok a /\ k a = Ok b.
Proof. destruct r as [e|a]; [discriminate|]. intros H. exists a. auto. Qed.

Lemma forall_range_spec (f : Z -> bool) (count : nat) : forall lo n,
  forall_range f lo count = true ->
  lo <= n < lo + Z.of_nat count -> f n = true.
Proof.
  induction count as [|c IH]; intros lo n H Hn; [lia|].
  simpl in H. apply andb_true_iff in H as [Hlo Hrest].
  destruct (decide (n = lo)) as [->|Hne]; [exact Hlo|].
  apply (IH (lo + 1)); [exact Hrest|lia].
Qed.

Lemma counts_checked :
  forall_range count_checked 1 (Z.to_nat count_bound) = true.
Proof. vm_compute. reflexivity. Qed.

Lemma count_checked_in_bound (n : Z) :
  1 <= n <= count_bound -> count_checked n = true.
Proof.
  intros Hn. apply (forall_range_spec _ _ 1 n counts_checked).
  unfold count_bound in *. lia.
Qed.

(** The script's own grid is [grid_setup] at the script's parameters. *)
Lemma grid_setup_script :
  grid_setup Lx Ly ztop zbot nlay nrow ncol =
    Ok {| g_delr := delr; g_delc := delc; g_delv := delv;
          g_x_coord := x_coord; g_y_coord := y_coord; g_botm := botm;
          g_ibound := ibound; g_strt := strt |}.
Proof. vm_compute. reflexivity. Qed.

Lemma well_setup_script :
  well_index nrow = Ok r_well /\ well_index ncol = Ok c_well /\
  well_setup nrow ncol = Ok stress_period_data.
Proof. vm_compute. repeat split; reflexivity. Qed.

Lemma bind_Ok {A B} (a : A) (k : A -> result B) : Ok a ≫= k = k a.
Proof. reflexivity. Qed.

Lemma bind_Raise {A B} (e : exn) (k : A -> result B) : Raise e ≫= k = Raise e.
Proof. reflexivity. Qed.

Lemma truediv_fi_zero (x : float) : truediv_fi x 0 = Raise ZeroDivisionError.
Proof. reflexivity. Qed.



Lemma truediv_fi_Ok_nonzero (x y : float) (n : Z) :
  truediv_fi x n = Ok y -> n <> 0.
Proof. intros H ->. rewrite truediv_fi_zero in H. discriminate. Qed.



Lemma linspace_last start stop num l :
  2 <= num -> linspace start stop num = Ok l -> last l = Some stop.
Proof.
  intros Hnum Hl. pose proof (linspace_length _ _ _ _ Hl) as Hlen.
  revert Hl. unfold linspace, Ok, Raise.
  assert (E0 : (num <? 0) = false) by (apply Z.ltb_ge; lia).
  assert (E1 : (1 <? num) = true) by (apply Z.ltb_lt; lia).
  rewrite E0, E1. intros [= <-]. rewrite last_lookup, length_insert in *.
  replace (Init.Nat.pred _) with (Z.to_nat num - 1)%nat by lia.
  apply list_lookup_insert_eq. lia.
Qed.



Lemma ones_Ok_nonneg {A} (one : A) d0 d1 d2 a :
  ones one d0 d1 d2 = Ok a -> 0 <= d0 /\ 0 <= d1 /\ 0 <= d2.
Proof.
  unfold ones, Ok, Raise. case_match eqn:E; [discriminate|]. intros _.
  rewrite !orb_false_iff, !Z.ltb_ge in E. tauto.
Qed.

Lemma norm_index_inside (n : nat) (i : Z) :
  0 <= i < Z.of_nat n -> norm_index n i = Ok (Z.to_nat i).
Proof.
  intros H. unfold norm_index.
  destruct (Z.leb_spec 0 i); [|lia].
  destruct (Z.ltb_spec i (Z.of_nat n)); [|lia]. reflexivity.
Qed.

Lemma norm_index_outside (n : nat) (i : Z) :
  i < - Z.of_nat n \/ Z.of_nat n <= i -> norm_index n i = Raise IndexError.
Proof.
  intros H. unfold norm_index.
  destruct (Z.leb_spec 0 i), (Z.ltb_spec i (Z.of_nat n)),
    (Z.leb_spec (- Z.of_nat n) i), (Z.ltb_spec i 0);
    simpl; try reflexivity; lia.
Qed.

Lemma mapM_pair {A B} (f : A -> result B) (a b : A) :
  mapM f [a; b] = y ← f a; z ← f b; Ok [y; z].
Proof. simpl. destruct (f a); [reflexivity|]. simpl. destruct (f b); reflexivity. Qed.

(** The two column indices of line 46 on an axis of [ncol] cells. *)
Lemma head_columns_indices (ncol : Z) (n : nat) :
  n = Z.to_nat ncol ->
  mapM (norm_index n) [0; ncol - 1] =
    if 1 <=? ncol then Ok [0%nat; Z.to_nat (ncol - 1)] else Raise IndexError.
Proof.
  intros ->. rewrite mapM_pair.
  destruct (Z.leb_spec 1 ncol) as [Hpos|Hneg].
  - rewrite !norm_index_inside by lia. reflexivity.
  - rewrite (norm_index_outside _ 0) by lia. reflexivity.
Qed.

Section OtherGrids.
Variables (Lx Ly ztop zbot : float) (nlay nrow ncol : Z).

(** What a successful set-up went through, statement by statement. *)
Lemma grid_setup_inv (g : grid) :
  grid_setup Lx Ly ztop zbot nlay nrow ncol = Ok g ->
  (1 <= nlay /\ 1 <= nrow /\ 1 <= ncol) /\
  (exists a b, linspace a b ncol = Ok (g_x_coord g)) /\
  (exists a b, linspace a b nrow = Ok (g_y_coord g)) /\
  linspace ztop zbot (nlay + 1) = Ok (g_botm g) /\
  (exists a0, ones 1 nlay nrow ncol = Ok a0 /\
              setitem_cols a0 [0; ncol - 1] (-1) = Ok (g_ibound g)) /\
  (exists s0, ones F32.one nlay nrow ncol = Ok s0 /\
              g_strt g = scale F32.mul (F32.of_float 100) s0).
Proof.
  unfold grid_setup. intros H.
  apply bind_Ok_inv in H as (delr' & Hdelr & H).
  apply bind_Ok_inv in H as (delc' & Hdelc & H).
  apply bind_Ok_inv in H as (delv' & Hdelv & H).
  apply bind_Ok_inv in H as (xs & Hxs & H).
  apply bind_Ok_inv in H as (ys & Hys & H).
  apply bind_Ok_inv in H as (bs & Hbs & H).
  apply bind_Ok_inv in H as (ib & Hib & H).
  apply bind_Ok_inv in H as (st & Hst & H).
  injection H as <-. simpl.
  apply truediv_fi_Ok_nonzero in Hdelr, Hdelc, Hdelv.
  apply bind_Ok_inv in Hxs as (a & _ & Hxs).
  apply bind_Ok_inv in Hxs as (b & _ & Hxs).
  apply bind_Ok_inv in Hys as (a' & _ & Hys).
  apply bind_Ok_inv in Hys as (b' & _ & Hys).
  apply bind_Ok_inv in Hib as (a0 & Hones & Hset).
  apply bind_Ok_inv in Hst as (s0 & Hsones & Hscale).
  injection Hscale as <-.
  pose proof (ones_Ok_nonneg _ _ _ _ _ Hones) as (? & ? & ?).
  split; [lia|]. split; [eauto|]. split; [eauto|]. split; [exact Hbs|].
  split; eauto.
Qed.

(** The cells of the boundary array of a grid that was set up. *)
Lemma grid_ibound_cells (g : grid) (l r c : nat) :
  grid_setup Lx Ly ztop zbot nlay nrow ncol = Ok g ->
  cell3 (g_ibound g) l r c =
    if bool_decide (Z.of_nat l < nlay /\ Z.of_nat r < nrow /\ Z.of_nat c < ncol)
    then Some (if bool_decide (Z.of_nat c = 0 \/ Z.of_nat c = ncol - 1)
               then -1 else 1)
    else None.
Proof.
  intros (Hdims & _ & _ & _ & (a0 & Hones & Hset) & _)%grid_setup_inv.
  destruct (cell3_setitem_cols _ _ _ _ l r c Hset) as (js & Hjs & ->).
  rewrite (cell3_ones _ _ _ _ _ l r c Hones).
  apply ones_shape in Hones as [Hshape _]. rewrite Hshape in Hjs.
  cbn [snd] in Hjs. rewrite (head_columns_indices ncol _ eq_refl) in Hjs.
  destruct (Z.leb_spec 1 ncol); [|lia]. injection Hjs as <-.
  assert (Hin : (l < Z.to_nat nlay /\ r < Z.to_nat nrow /\ c < Z.to_nat ncol)%nat
                <-> Z.of_nat l < nlay /\ Z.of_nat r < nrow /\ Z.of_nat c < ncol)
    by lia.
  rewrite (bool_decide_ext _ _ Hin).
  assert (Hcol : c ∈ [0%nat; Z.to_nat (ncol - 1)]
                 <-> Z.of_nat c = 0 \/ Z.of_nat c = ncol - 1).
  { rewrite !elem_of_cons, elem_of_nil. lia. }
  rewrite (bool_decide_ext _ _ Hcol).
  repeat case_bool_decide; reflexivity.
Qed.

End OtherGrids.


Lemma well_index_checked (n : Z) :
  1 <= n <= count_bound ->
  exists k, well_index n = Ok k /\ 0 <= k < n /\ Z.abs (2 * k - n) <= 1 /\
            (4 <= n -> 0 < k < n - 1) /\ (n < 4 -> k = 0 \/ k = n - 1).
Proof.
  intros H%count_checked_in_bound. unfold count_checked in H.
  apply andb_true_iff in H as [_ H].
  destruct (well_index n) as [e|k]; [discriminate|].
  exists k. split; [reflexivity|].
  rewrite !andb_true_iff, Z.leb_le, Z.ltb_lt, Z.leb_le in H.
  destruct H as [[[H0 Hn] Habs] Hedge].
  split; [lia|]. split; [lia|].
  destruct (Z.leb_spec 4 n).
  - rewrite andb_true_iff, !Z.ltb_lt in Hedge. split; lia.
  - rewrite orb_true_iff, !Z.eqb_eq in Hedge. split; [lia|tauto].
Qed.



(** X2: on every grid the set-up accepts, whatever its size, the boundary
    array has the shape of the grid, its cells fill that shape, and a
    cell holds -1 in the first and in the last column and 1 in every
    other column (with one column all cells hold -1). *)
Theorem grid_boundary_columns (Lx Ly ztop zbot : float) (nlay nrow ncol : Z)
    (g : grid) :
  grid_setup Lx Ly ztop zbot nlay nrow ncol = Ok g ->
  shape3 (g_ibound g) = (Z.to_nat nlay, Z.to_nat nrow, Z.to_nat ncol) /\
  wf3 (g_ibound g) /\
  forall l r c : nat,
    cell3 (g_ibound g) l r c =
      if bool_decide (Z.of_nat l < nlay /\ Z.of_nat r < nrow /\ Z.of_nat c < ncol)
      then Some (if bool_decide (Z.of_nat c = 0 \/ Z.of_nat c = ncol - 1)
                 then -1 else 1)
      else None.
Proof.
  intros Hg.
  pose proof (grid_setup_inv _ _ _ _ _ _ _ _ Hg)
    as (_ & _ & _ & _ & (a0 & Hones & Hset) & _).
  pose proof (ones_shape _ _ _ _ _ Hones) as [Hshape Hwf].
  pose proof (setitem_cols_inv _ _ _ _ Hset) as (_ & _ & Hsh & _).
  split; [congruence|].
  split; [eapply wf3_setitem_cols; eassumption|].
  intros l r c. eapply grid_ibound_cells, Hg.
Qed.

Lemma grid_boundary_columns_witness :
  cell3 ibound 0 49 99 = Some (-1) /\ cell3 ibound 0 49 98 = Some 1.
Proof.
  pose proof (grid_boundary_columns _ _ _ _ _ _ _ _ grid_setup_script)
    as (_ & _ & H).
  split; (etrans; [apply (H 0 49 _)%nat | reflexivity]).
Defined.

(** X3: on every grid the set-up accepts, the initial heads have the
    shape of the boundary array, their cells fill it, and every cell is
    the binary32 number 100. *)
Theorem grid_initial_heads (Lx Ly ztop zbot : float) (nlay nrow ncol : Z)
    (g : grid) :
  grid_setup Lx Ly ztop zbot nlay nrow ncol = Ok g ->
  shape3 (g_strt g) = shape3 (g_ibound g) /\
  wf3 (g_strt g) /\
  forall l r c : nat,
    cell3 (g_strt g) l r c =
      if bool_decide (Z.of_nat l < nlay /\ Z.of_nat r < nrow /\ Z.of_nat c < ncol)
      then Some head_100 else None.
Proof.
  intros Hg.
  pose proof (grid_setup_inv _ _ _ _ _ _ _ _ Hg)
    as (_ & _ & _ & _ & (a0 & Hones & Hset) & (s0 & Hsones & Hstrt)).
  pose proof (ones_shape _ _ _ _ _ Hones) as [Hshape _].
  pose proof (ones_shape _ _ _ _ _ Hsones) as [Hsshape Hswf].
  pose proof (setitem_cols_inv _ _ _ _ Hset) as (_ & _ & Hsh & _).
  rewrite Hstrt. split; [simpl; congruence|].
  split; [apply wf3_scale, Hswf|].
  intros l r c. rewrite cell3_scale, (cell3_ones _ _ _ _ _ l r c Hsones).
  assert (Hin : (l < Z.to_nat nlay /\ r < Z.to_nat nrow /\ c < Z.to_nat ncol)%nat
                <-> Z.of_nat l < nlay /\ Z.of_nat r < nrow /\ Z.of_nat c < ncol).
  { apply ones_Ok_nonneg in Hsones. lia. }
  rewrite (bool_decide_ext _ _ Hin). case_bool_decide; reflexivity.
Qed.

Lemma grid_initial_heads_witness :
  shape3 strt = shape3 ibound /\ cell3 strt 0 49 99 = Some head_100.
Proof.
  pose proof (grid_initial_heads _ _ _ _ _ _ _ _ grid_setup_script)
    as (Hs & _ & H).
  split; [exact Hs|].
  etrans; [apply (H 0 49 99)%nat | reflexivity].
Defined.

(** X4: on every grid the set-up accepts, [x_coord] has ncol entries,
    [y_coord] has nrow, [botm] has nlay + 1 and ends exactly at [zbot],
    so that [botm[1:]], which the discretisation package is given, has
    one bottom per layer, the lowest being [zbot] itself. *)
Theorem grid_vectors (Lx Ly ztop zbot : float) (nlay nrow ncol : Z)
    (g : grid) :
  grid_setup Lx Ly ztop zbot nlay nrow ncol = Ok g ->
  Z.of_nat (length (g_x_coord g)) = ncol /\
  Z.of_nat (length (g_y_coord g)) = nrow /\
  Z.of_nat (length (g_botm g)) = nlay + 1 /\
  Z.of_nat (length (drop 1 (g_botm g))) = nlay /\
  last (drop 1 (g_botm g)) = Some zbot.
Proof.
  intros Hg.
  pose proof (grid_setup_inv _ _ _ _ _ _ _ _ Hg)
    as (Hdims & (a & b & Hx) & (a' & b' & Hy) & Hb & _).
  assert (Hlast : last (g_botm g) = Some zbot)
    by (eapply linspace_last; [|exact Hb]; lia).
  apply linspace_length in Hx, Hy. pose proof (linspace_length _ _ _ _ Hb) as Hlen.
  split; [lia|]. split; [lia|]. split; [lia|].
  split; [rewrite length_drop; lia|].
  destruct (g_botm g) as [|x [|y bs]]; simpl in Hlen; try lia. exact Hlast.
Qed.

Lemma grid_vectors_witness :
  Z.of_nat (length x_coord) = ncol /\ Z.of_nat (length y_coord) = nrow /\
  Z.of_nat (length botm) = nlay + 1 /\
  Z.of_nat (length (drop 1 botm)) = nlay /\ last (drop 1 botm) = Some zbot.
Proof. exact (grid_vectors _ _ _ _ _ _ _ _ grid_setup_script). Defined.

(** X5: for a grid of 1 to 10000 rows and columns, [round(nrow/2)] and
    [round(ncol/2)] are valid indices of their axes, each within half a
    cell of the middle, and the well data put both stress periods at that
    cell of layer 0, with flux -1000 and 0. *)
Theorem well_setup_in_grid (nrow ncol : Z) :
  1 <= nrow <= count_bound -> 1 <= ncol <= count_bound ->
  exists r c,
    well_index nrow = Ok r /\ well_index ncol = Ok c /\
    0 <= r < nrow /\ 0 <= c < ncol /\
    Z.abs (2 * r - nrow) <= 1 /\ Z.abs (2 * c - ncol) <= 1 /\
    well_setup nrow ncol =
      Ok (<[1 := [[0; r; c; 0]]]> (<[0 := [[0; r; c; -1000]]]> ∅)).
Proof.
  intros (r & Hr & Hr_in & Hr_mid & _)%well_index_checked
         (c & Hc & Hc_in & Hc_mid & _)%well_index_checked.
  exists r, c. unfold well_setup. rewrite Hr, Hc.
  repeat (split; [assumption || reflexivity|]). reflexivity.
Qed.

Lemma well_setup_in_grid_witness :
  exists r c,
    well_index nrow = Ok r /\ well_index ncol = Ok c /\
    0 <= r < nrow /\ 0 <= c < ncol /\
    Z.abs (2 * r - nrow) <= 1 /\ Z.abs (2 * c - ncol) <= 1 /\
    well_setup nrow ncol =
      Ok (<[1 := [[0; r; c; 0]]]> (<[0 := [[0; r; c; -1000]]]> ∅)).
Proof.
  apply (well_setup_in_grid nrow ncol); vm_compute; split; discriminate.
Defined.

(** X6: on a grid of up to 10000 rows and columns that the set-up
    accepts, the well's cell is an active cell (1 in the boundary array)
    exactly when the grid has at least four columns; with one, two or
    three columns the well sits on a constant-head column (-1). *)
Theorem well_cell_active_from_four_columns (Lx Ly ztop zbot : float) (nlay nrow ncol : Z)
    (g : grid) :
  grid_setup Lx Ly ztop zbot nlay nrow ncol = Ok g ->
  nrow <= count_bound -> ncol <= count_bound ->
  exists r c,
    well_index nrow = Ok r /\ well_index ncol = Ok c /\
    cell3 (g_ibound g) 0 (Z.to_nat r) (Z.to_nat c) =
      Some (if 4 <=? ncol then 1 else -1).
Proof.
  intros Hg Hrb Hcb.
  pose proof (grid_setup_inv _ _ _ _ _ _ _ _ Hg) as ((Hl & Hr1 & Hc1) & _).
  destruct (well_index_checked nrow ltac:(lia)) as (r & Hr & Hr_in & _).
  destruct (well_index_checked ncol ltac:(lia))
    as (c & Hc & Hc_in & _ & Hinner & Hedge).
  exists r, c. split; [exact Hr|]. split; [exact Hc|].
  rewrite (grid_ibound_cells _ _ _ _ _ _ _ _ _ _ _ Hg).
  rewrite bool_decide_eq_true_2 by lia. f_equal.
  destruct (Z.leb_spec 4 ncol).
  - rewrite bool_decide_eq_false_2 by lia. reflexivity.
  - rewrite bool_decide_eq_true_2 by lia. reflexivity.
Qed.

Lemma well_cell_active_from_four_columns_witness :
  exists r c,
    well_index nrow = Ok r /\ well_index ncol = Ok c /\
    cell3 ibound 0 (Z.to_nat r) (Z.to_nat c) = Some 1.
Proof.
  apply (well_cell_active_from_four_columns _ _ _ _ _ _ _ _ grid_setup_script);
    vm_compute; discriminate.
Defined.

(** ** Runs of the script: what is passed on, and how a run can end *)

Example run_without_times :
  outcome no_times = Raise IndexError /\
  names (trace no_times) = take 16 script_names.
Proof. vm_compute. split; reflexivity. Qed.

Example run_with_one_column :
  outcome one_column_ts = Raise IndexError /\
  names (trace one_column_ts) = take 29 script_names.
Proof. vm_compute. split; reflexivity. Qed.

Example run_with_short_head :
  outcome short_head = Raise IndexError /\
  names (trace short_head) = take 22 script_names.
Proof. vm_compute. split; reflexivity. Qed.

Lemma getitem_first {A} (l : list A) (a : A) :
  getitem l 0 = Ok a -> exists rest, l = a :: rest.
Proof.
  destruct l as [|x rest]; [discriminate|].
  unfold getitem. rewrite norm_index_inside by (simpl; lia).
  rewrite bind_Ok. simpl. intros [= <-]. eauto.
Qed.

Lemma getitem_empty {A} (i : Z) : getitem (@nil A) i = Raise IndexError.
Proof. unfold getitem. rewrite norm_index_outside by (simpl; lia). reflexivity. Qed.

(** As [run_statement], but an indexing expression leaves behind what it
    was and what it gave. *)
Ltac run_statement_eq :=
  lazymatch goal with
  | |- holds _ ((eval _ ≫= _) _ _) =>
      rewrite bind_eval;
      lazymatch goal with
      | |- holds _ (match ?r with inl _ => _ | inr _ => _ end) =>
          let Hr := fresh "Hr" in
          let e := fresh "e" in
          let E := fresh "E" in
          assert (Hr : raises_only_IndexError r) by auto with raises;
          destruct r as [e|?] eqn:E;
          [ assert (e = IndexError) as -> by exact (Hr e eq_refl) | ];
          clear Hr; cbv beta iota
      end
  | _ => run_statement
  end.

Ltac run_script_eq tac :=
  unfold script; repeat (run_statement_eq; try run_ended tac).

(** X7: in every run, each package constructor, [write_input] and
    [run_model] are given the model object that [Modflow] returned, and
    [get_times], [get_data] and [get_ts] are called on the object that
    [HeadFile] returned; a run makes at most one model and opens at most
    one head file. *)
Theorem handles_passed_on (w : world) :
  Forall (fun mf => omap made_model (trace w) = [mf])
         (omap model_arg (trace w)) /\
  Forall (fun h => omap opened_head_file (trace w) = [h])
         (omap head_file_arg (trace w)) /\
  (length (omap made_model (trace w)) <= 1)%nat /\
  (length (omap opened_head_file (trace w)) <= 1)%nat.
Proof.
  change (holds (fun tr _ =>
    Forall (fun mf => omap made_model tr = [mf]) (omap model_arg tr) /\
    Forall (fun h => omap opened_head_file tr = [h]) (omap head_file_arg tr) /\
    (length (omap made_model tr) <= 1)%nat /\
    (length (omap opened_head_file tr) <= 1)%nat) (script w [])).
  run_script ltac:(vm_compute; repeat split; repeat constructor).
Qed.

Lemma norm_index_Ok_nonneg (n : nat) (i : Z) (j : nat) :
  norm_index n i = Ok j -> 0 <= i -> (Z.to_nat i < n)%nat.
Proof.
  unfold norm_index, Ok, Raise. intros H Hi.
  destruct (Z.leb_spec 0 i), (Z.ltb_spec i (Z.of_nat n)),
    (Z.leb_spec (- Z.of_nat n) i), (Z.ltb_spec i 0);
    simpl in H; try discriminate; lia.
Qed.

Lemma plane_Ok_layers {A} (a : ndarray3 A) (p : ndarray2 A) :
  plane a 0 = Ok p -> (0 < (shape3 a).1.1)%nat /\ (shape2 p).1 = (shape3 a).1.2.
Proof.
  unfold plane. intros (i & Hi & H)%bind_Ok_inv.
  apply norm_index_Ok_nonneg in Hi; [|lia].
  destruct (data3 a !! i); [|discriminate]. injection H as <-.
  split; [simpl in Hi; lia|reflexivity].
Qed.

Lemma row_Ok_rows {A} (a : ndarray3 A) (j : Z) (r : list A) :
  row a 0 j = Ok r -> 0 <= j -> (Z.to_nat j < (shape3 a).1.2)%nat.
Proof.
  unfold row. intros (p & Hp & H)%bind_Ok_inv Hj.
  apply plane_Ok_layers in Hp as [_ <-].
  apply bind_Ok_inv in H as (j' & Hj' & _).
  eapply norm_index_Ok_nonneg; eassumption.
Qed.

Lemma column_Ok_columns {A} (a : ndarray2 A) (j : Z) (l : list A) :
  column a j = Ok l -> 0 <= j -> (Z.to_nat j < (shape2 a).2)%nat.
Proof.
  unfold column. intros (j' & Hj' & _)%bind_Ok_inv Hj.
  eapply norm_index_Ok_nonneg; eassumption.
Qed.

(** Turn what the indexing expressions gave into facts about the data. *)
Ltac use_indexing :=
  repeat match goal with
    | E : getitem _ 0 = inr _ |- _ => apply getitem_first in E as [? ->]
    | E : plane ?a 0 = inr _ |- _ =>
        lazymatch goal with
        | _ : (0 < (shape3 a).1.1)%nat |- _ => fail
        | _ => pose proof (proj1 (plane_Ok_layers _ _ E))
        end
    | E : row ?a 0 ?j = inr _ |- _ =>
        lazymatch goal with
        | _ : (Z.to_nat j < (shape3 a).1.2)%nat |- _ => fail
        | _ => pose proof (row_Ok_rows _ _ _ E ltac:(vm_compute; discriminate))
        end
    | E : column ?a ?j = inr _ |- _ =>
        lazymatch goal with
        | _ : (Z.to_nat j < (shape2 a).2)%nat |- _ => fail
        | _ => pose proof (column_Ok_columns _ _ _ E ltac:(vm_compute; discriminate))
        end
    end.

(** X8: in every run, [get_data] is asked for the first of the times
    that [get_times] returned; when [get_times] returns no time at all,
    the run ends with IndexError right after that call, before any head
    is read or anything is plotted. *)
Theorem head_at_first_time (w : world) :
  Forall (fun t => exists rest, omap times_read (trace w) = [t :: rest])
         (omap totim_arg (trace w)) /\
  (omap times_read (trace w) = [[]] ->
   outcome w = Raise IndexError /\
   names (trace w) = take 16 script_names /\
   omap totim_arg (trace w) = []).
Proof.
  change (holds (fun tr out =>
    Forall (fun t => exists rest, omap times_read tr = [t :: rest])
           (omap totim_arg tr) /\
    (omap times_read tr = [[]] ->
     out = Raise IndexError /\ names tr = take 16 script_names /\
     omap totim_arg tr = [])) (script w [])).
  run_script_eq ltac:(use_indexing; vm_compute; split;
                      [repeat econstructor
                      |intros; try discriminate; repeat split; reflexivity]).
Qed.

Lemma head_at_first_time_witness :
  outcome no_times = Raise IndexError /\
  names (trace no_times) = take 16 script_names /\
  omap totim_arg (trace no_times) = [].
Proof.
  apply (proj2 (head_at_first_time no_times)). vm_compute. reflexivity.
Defined.

(** Bring what the indexing expressions gave into computed form. *)
Ltac compute_indexing :=
  repeat match goal with
    | E : _ = inr _ |- _ => progress vm_compute in E
    end.

Ltac flow :=
  repeat first
    [ exact I | reflexivity | assumption | apply Forall_nil_2
    | apply Forall_cons | split | eexists ].

(** A run whose data is too small for an indexing expression: either the
    expression gave something, against the size, or the run is known. *)
Ltac too_small H :=
  vm_compute in H;
  first
    [ discriminate H
    | injection H as <-;
      first
        [ exfalso; simpl in *; lia
        | vm_compute; repeat split; intros; try discriminate; reflexivity ] ].

(** X9: in every run, [imshow] is given layer 0 of the head that
    [get_data] returned, with the extent (5, 995, 990, 10) of the cell
    centres and the colour map BrBG; a head without layers is never
    shown: the run cannot complete, and ends with IndexError after the
    first [plt.subplot] when the calls return. *)
Theorem head_map_shown (w : world) :
  Forall (fun '(X, ext, cmap) =>
            ext = extent /\ cmap = "BrBG" /\
            exists hd, omap head_read (trace w) = [hd] /\ plane hd 0 = Ok X)
         (omap image_arg (trace w)) /\
  (forall hd, omap head_read (trace w) = [hd] -> (shape3 hd).1.1 = 0%nat ->
     omap image_arg (trace w) = [] /\ outcome w <> Ok tt /\
     (forallb returned (trace w) = true ->
      outcome w = Raise IndexError /\ names (trace w) = take 18 script_names)).
Proof.
  change (holds (fun tr out =>
    Forall (fun '(X, ext, cmap) =>
              ext = extent /\ cmap = "BrBG" /\
              exists hd, omap head_read tr = [hd] /\ plane hd 0 = Ok X)
           (omap image_arg tr) /\
    (forall hd, omap head_read tr = [hd] -> (shape3 hd).1.1 = 0%nat ->
       omap image_arg tr = [] /\ out <> Ok tt /\
       (forallb returned tr = true ->
        out = Raise IndexError /\ names tr = take 18 script_names)))
    (script w [])).
  run_script_eq ltac:(use_indexing; split;
                      [compute_indexing; vm_compute; flow
                      |let hd := fresh "hd" in
                       let Hhd := fresh "Hhd" in
                       intros hd Hhd ?; too_small Hhd]).
Qed.

Lemma head_map_shown_witness :
  outcome empty_head = Raise IndexError /\
  names (trace empty_head) = take 18 script_names.
Proof.
  pose proof (head_map_shown empty_head) as (_ & H).
  destruct (H (ok_value (ones 100%float 0 50 100) I)) as (_ & _ & H');
    [vm_compute; reflexivity ..|].
  apply H'. vm_compute. reflexivity.
Defined.

(** X10: in every run, the first plot of two series is [x_coord] against
    row [r_well] of layer 0 of the head that [get_data] returned; a head
    with no more than [r_well] rows is never plotted that way: the run
    cannot complete, and ends with IndexError when the calls return. *)
Theorem cross_section_plotted (w : world) :
  match omap series_arg (trace w) with
  | (xs, ys) :: _ =>
      xs = x_coord /\
      exists hd, omap head_read (trace w) = [hd] /\ row hd 0 r_well = Ok ys
  | [] => True
  end /\
  (forall hd, omap head_read (trace w) = [hd] ->
     ((shape3 hd).1.2 <= Z.to_nat r_well)%nat ->
     omap series_arg (trace w) = [] /\ outcome w <> Ok tt /\
     (forallb returned (trace w) = true -> outcome w = Raise IndexError)).
Proof.
  change (holds (fun tr out =>
    match omap series_arg tr with
    | (xs, ys) :: _ =>
        xs = x_coord /\
        exists hd, omap head_read tr = [hd] /\ row hd 0 r_well = Ok ys
    | [] => True
    end /\
    (forall hd, omap head_read tr = [hd] ->
       ((shape3 hd).1.2 <= Z.to_nat r_well)%nat ->
       omap series_arg tr = [] /\ out <> Ok tt /\
       (forallb returned tr = true -> out = Raise IndexError)))
    (script w [])).
  run_script_eq ltac:(use_indexing; split;
                      [compute_indexing; vm_compute; flow
                      |let hd := fresh "hd" in
                       let Hhd := fresh "Hhd" in
                       intros hd Hhd ?; too_small Hhd]).
Qed.

Lemma cross_section_plotted_witness :
  omap series_arg (trace short_head) = [] /\ outcome short_head <> Ok tt /\
  (forallb returned (trace short_head) = true ->
   outcome short_head = Raise IndexError).
Proof.
  pose proof (cross_section_plotted short_head) as (_ & H).
  apply (H (ok_value (ones 100%float 1 20 100) I));
    vm_compute; [reflexivity|repeat constructor].
Defined.

(** X11: in every run, [get_ts] is asked for the well's cell
    (0, r_well, c_well), and the second plot of two series is column 1 of
    what it returned against column 0; a time series with fewer than two
    columns is never plotted: the run cannot complete, and ends with
    IndexError after [plt.ylabel] when the calls return. *)
Theorem time_series_plotted (w : world) :
  Forall (fun i => i = (0, r_well, c_well) /\ i = idx)
         (omap ts_cell_arg (trace w)) /\
  match omap series_arg (trace w) with
  | _ :: (xs, ys) :: _ =>
      exists ts, omap ts_read (trace w) = [ts] /\
                 column ts 0 = Ok xs /\ column ts 1 = Ok ys
  | _ => True
  end /\
  (forall ts, omap ts_read (trace w) = [ts] -> ((shape2 ts).2 < 2)%nat ->
     (length (omap series_arg (trace w)) <= 1)%nat /\ outcome w <> Ok tt /\
     (forallb returned (trace w) = true ->
      outcome w = Raise IndexError /\ names (trace w) = take 29 script_names)).
Proof.
  change (holds (fun tr out =>
    Forall (fun i => i = (0, r_well, c_well) /\ i = idx) (omap ts_cell_arg tr) /\
    match omap series_arg tr with
    | _ :: (xs, ys) :: _ =>
        exists ts, omap ts_read tr = [ts] /\
                   column ts 0 = Ok xs /\ column ts 1 = Ok ys
    | _ => True
    end /\
    (forall ts, omap ts_read tr = [ts] -> ((shape2 ts).2 < 2)%nat ->
       (length (omap series_arg tr) <= 1)%nat /\ out <> Ok tt /\
       (forallb returned tr = true ->
        out = Raise IndexError /\ names tr = take 29 script_names)))
    (script w [])).
  run_script_eq ltac:(use_indexing; split; [compute_indexing; vm_compute; flow|]; split;
                      [compute_indexing; vm_compute; flow
                      |let ts := fresh "ts" in
                       let Hts := fresh "Hts" in
                       intros ts Hts ?; too_small Hts]).
Qed.

Lemma time_series_plotted_witness :
  (length (omap series_arg (trace one_column_ts)) <= 1)%nat /\
  outcome one_column_ts <> Ok tt /\
  (forallb returned (trace one_column_ts) = true ->
   outcome one_column_ts = Raise IndexError /\
   names (trace one_column_ts) = take 29 script_names).
Proof.
  pose proof (time_series_plotted one_column_ts) as (_ & _ & H).
  apply (H {| shape2 := (2, 1)%nat; data2 := [[1]; [2]]%float |});
    vm_compute; [reflexivity|repeat constructor].
Defined.

(** X12: a run ends in exactly one of four ways.  It completes, having
    made every call of the script with every call returning; or it ends
    with the script's own exception, the solver having reported failure;
    or with IndexError, raised by indexing what the head file returned,
    after 16, 18, 22 or 29 calls that all returned; or with the error of
    the library call that raised, which is then the last call.  It never
    ends with another exception, and a run that makes all the calls and
    sees them return completes. *)
Theorem run_endings (w : world) :
  match outcome w with
  | inr _ => names (trace w) = script_names /\ forallb returned (trace w) = true
  | inl (Exception msg) =>
      msg = did_not_terminate /\ solver_reports (trace w) = [false] /\
      forallb returned (trace w) = true
  | inl IndexError =>
      solver_reports (trace w) = [true] /\ forallb returned (trace w) = true /\
      length (trace w) ∈ [16; 18; 22; 29]%nat
  | inl (LibraryError what) =>
      raised_last (trace w) = Some what /\
      forallb returned (trace w) = false
  | inl _ => False
  end /\
  (names (trace w) = script_names -> forallb returned (trace w) = true ->
   outcome w = Ok tt).
Proof.
  change (holds (fun tr out =>
    match out with
    | inr _ => names tr = script_names /\ forallb returned tr = true
    | inl (Exception msg) =>
        msg = did_not_terminate /\ solver_reports tr = [false] /\
        forallb returned tr = true
    | inl IndexError =>
        solver_reports tr = [true] /\ forallb returned tr = true /\
        length tr ∈ [16; 18; 22; 29]%nat
    | inl (LibraryError what) =>
        raised_last tr = Some what /\ forallb returned tr = false
    | inl _ => False
    end /\
    (names tr = script_names -> forallb returned tr = true -> out = Ok tt))
    (script w [])).
  run_script ltac:(
    repeat match goal with u : unit |- _ => destruct u end; split;
    [ vm_compute; repeat split; try reflexivity;
      repeat first [apply list_elem_of_here | apply list_elem_of_further]
    | vm_compute; intros; try discriminate; reflexivity ]).
Qed.

Lemma run_endings_witness : outcome (answers true) = Ok tt.
Proof.
  apply (proj2 (run_endings (answers true))); vm_compute; reflexivity.
Defined.

(** X13: no run reads the head file or plots anything unless the solver
    reported success. *)
Theorem results_only_after_success (w : world) :
  existsb uses_results (trace w) = true -> solver_reports (trace w) = [true].
Proof.
  change (holds (fun tr _ =>
    existsb uses_results tr = true -> solver_reports tr = [true])
    (script w [])).
  run_script ltac:(vm_compute; intros; try discriminate; reflexivity).
Qed.

Lemma results_only_after_success_witness :
  solver_reports (trace (answers true)) = [true].
Proof.
  apply (results_only_after_success (answers true)). vm_compute. reflexivity.
Defined.

(** X14: the plot coordinates are exactly the cell centres, with no
    rounding: [x_coord[i]] is 5 + 10 i (half a cell plus i cells of
    width [delr]), [y_coord[j]] is 990 - 20 j (row 0 at the top), and the
    image extent is made of their first and last entries. *)
Theorem coordinates_are_cell_centres :
  as_integer delr = Some 10 /\ as_integer delc = Some 20 /\
  as_integer <$> x_coord = (fun i => Some (5 + 10 * i)) <$> seqZ 0 ncol /\
  as_integer <$> y_coord = (fun j => Some (990 - 20 * j)) <$> seqZ 0 nrow /\
  (x0 ← getitem x_coord 0; x1 ← getitem x_coord (ncol - 1);
   y0 ← getitem y_coord 0; y1 ← getitem y_coord (nrow - 1);
   Ok (x0, x1, y0, y1)) = Ok extent /\
  extent = (5, 995, 990, 10)%float.
Proof. vm_compute. repeat split; reflexivity. Qed.
